(** * gstrtpjitterbuffer: a shallow embedding of the RTP jitter buffer element

    The development follows gst/rtpmanager/gstrtpjitterbuffer.c.  C integers
    are integers of [Z] with the conversions of the C types written out;
    the private structure of the element is a record that the pad functions
    pass along explicitly; the clock entry on which the streaming task
    sleeps is part of that record, so that the chain function and the task
    see the same entry. *)

From Stdlib Require Import ZArith List Bool Lia.
Import ListNotations.
Open Scope Z_scope.

(** ** C integer types *)

Module CInt.

Definition G_MAXUINT16 : Z := 65535.
Definition G_MAXINT32 : Z := 2147483647.
Definition G_MAXUINT32 : Z := 4294967295.
Definition G_MAXUINT64 : Z := 18446744073709551615.

(** Conversion to an unsigned type keeps the value modulo 2^w. *)
Definition to_guint16 (z : Z) : Z := z mod 2 ^ 16.
Definition to_guint32 (z : Z) : Z := z mod 2 ^ 32.
Definition to_guint64 (z : Z) : Z := z mod 2 ^ 64.

(** Conversion to a signed type wraps around in two's complement. *)
Definition to_gint16 (z : Z) : Z := (z + 2 ^ 15) mod 2 ^ 16 - 2 ^ 15.
Definition to_gint32 (z : Z) : Z := (z + 2 ^ 31) mod 2 ^ 32 - 2 ^ 31.
Definition to_gint64 (z : Z) : Z := (z + 2 ^ 63) mod 2 ^ 64 - 2 ^ 63.

Definition is_guint16 (z : Z) : Prop := 0 <= z <= G_MAXUINT16.
Definition is_guint32 (z : Z) : Prop := 0 <= z <= G_MAXUINT32.
Definition is_guint64 (z : Z) : Prop := 0 <= z <= G_MAXUINT64.
Definition is_gint32 (z : Z) : Prop := - 2 ^ 31 <= z < 2 ^ 31.
Definition is_gint64 (z : Z) : Prop := - 2 ^ 63 <= z < 2 ^ 63.

End CInt.
Export CInt.

(** ** GStreamer core: flow returns, clock returns, segments, scaling *)

Inductive GstFlowReturn : Type :=
| GST_FLOW_RESEND
| GST_FLOW_OK
| GST_FLOW_NOT_LINKED
| GST_FLOW_WRONG_STATE
| GST_FLOW_UNEXPECTED
| GST_FLOW_NOT_NEGOTIATED
| GST_FLOW_ERROR
| GST_FLOW_NOT_SUPPORTED.

Definition flow_is_ok (r : GstFlowReturn) : bool :=
  match r with GST_FLOW_OK => true | _ => false end.

Inductive GstClockReturn : Type :=
| GST_CLOCK_OK
| GST_CLOCK_EARLY
| GST_CLOCK_UNSCHEDULED
| GST_CLOCK_BUSY
| GST_CLOCK_BADTIME
| GST_CLOCK_ERROR
| GST_CLOCK_UNSUPPORTED.

Definition clock_is_unscheduled (r : GstClockReturn) : bool :=
  match r with GST_CLOCK_UNSCHEDULED => true | _ => false end.

Inductive GstFormat : Type :=
| GST_FORMAT_UNDEFINED
| GST_FORMAT_DEFAULT
| GST_FORMAT_BYTES
| GST_FORMAT_TIME
| GST_FORMAT_BUFFERS
| GST_FORMAT_PERCENT.

Definition GST_SECOND : Z := 1000000000.
Definition GST_MSECOND : Z := 1000000.

(** GstSegment; the two rates are doubles in C and are kept as the pair
    numerator, denominator of a ratio. *)
Record GstSegment : Type := mkSegment {
  seg_rate : Z * Z;
  seg_abs_rate : Z * Z;
  seg_format : GstFormat;
  seg_flags : Z;
  seg_start : Z;
  seg_stop : Z;
  seg_time : Z;
  seg_accum : Z;
  seg_last_stop : Z;
  seg_duration : Z
}.

(** gst_segment_init (segment, format) of the core library: rate 1.0, all
    positions 0, stop and duration unknown (-1). *)
Definition gst_segment_init (format : GstFormat) : GstSegment :=
  {| seg_rate := (1, 1);
     seg_abs_rate := (1, 1);
     seg_format := format;
     seg_flags := 0;
     seg_start := 0;
     seg_stop := -1;
     seg_time := 0;
     seg_accum := 0;
     seg_last_stop := 0;
     seg_duration := -1 |}.

(** gst_util_uint64_scale_int (val, num, denom) of the core library:
    val * num / denom over a wide intermediate, G_MAXUINT64 when the result
    does not fit or when the arguments are refused (denom <= 0, num < 0). *)
Definition gst_util_uint64_scale_int (val num denom : Z) : Z :=
  if (denom <=? 0) || (num <? 0) then G_MAXUINT64
  else
    let r := val * num / denom in
    if G_MAXUINT64 <? r then G_MAXUINT64 else r.

(** ** RTP buffers

    A GstBuffer holding an RTP packet: what gst_rtp_buffer_validate answers
    for it, the header fields the element reads, and the DISCONT flag. *)
Record GstBuffer : Type := mkBuffer {
  rtp_valid : bool;
  rtp_seq : Z;               (* guint16 *)
  rtp_timestamp : Z;         (* guint32 *)
  rtp_payload_type : Z;      (* guint8 *)
  flag_discont : bool
}.

Definition gst_rtp_buffer_set_timestamp (b : GstBuffer) (ts : Z) : GstBuffer :=
  {| rtp_valid := rtp_valid b;
     rtp_seq := rtp_seq b;
     rtp_timestamp := ts;
     rtp_payload_type := rtp_payload_type b;
     flag_discont := flag_discont b |}.

Definition set_flag_discont (b : GstBuffer) : GstBuffer :=
  {| rtp_valid := rtp_valid b;
     rtp_seq := rtp_seq b;
     rtp_timestamp := rtp_timestamp b;
     rtp_payload_type := rtp_payload_type b;
     flag_discont := true |}.

(** ** Sequence number comparison *)

(** priv_compare_rtp_seq_lt: "Performs comparison 'b - a' with check for
    overflows."  Both arguments are guint16 and are promoted to int. *)
Definition priv_compare_rtp_seq_lt (a b : Z) : Z :=
  if 2 ^ 15 <? Z.abs (b - a) then a - b else b - a.

(** The difference as the specification words it: (b - a) as a signed
    16-bit value, sign-extended. *)
Definition seq_diff_spec (a b : Z) : Z := to_gint16 (b - a).

(** ** The packet store

    The store lives in rtpjitterbuffer.c, of which only the calls are
    seen here; it is modelled from its contract. *)
Module Store.

(** Modelled from the spec: the RTPJitterBuffer object of
    rtpjitterbuffer.c (absent).  Entries are kept in ascending order of
    sequence number, the head being the oldest packet. *)
Definition RTPJitterBuffer : Type := list GstBuffer.

(** Modelled from the spec: rtp_jitter_buffer_new (absent), the empty
    store. *)
Definition rtp_jitter_buffer_new : RTPJitterBuffer := [].

(** Modelled from the spec: whether "a packet with the same seq already
    exists" in the store. *)
Definition has_seq (seqnum : Z) (jbuf : RTPJitterBuffer) : bool :=
  existsb (fun x => rtp_seq x =? seqnum) jbuf.

(** Modelled from the spec: the ordered position of a new entry; "compare
    two entries x, y by the sign of seq_diff(x.seq, y.seq)".  The entry
    goes before the first resident entry that is after it. *)
Fixpoint insert_ordered (buf : GstBuffer) (jbuf : RTPJitterBuffer)
  : RTPJitterBuffer :=
  match jbuf with
  | [] => [buf]
  | x :: rest =>
      if 0 <? seq_diff_spec (rtp_seq buf) (rtp_seq x)
      then buf :: x :: rest
      else x :: insert_ordered buf rest
  end.

(** Modelled from the spec: rtp_jitter_buffer_insert (absent); "returns
    false if a packet with the same seq already exists (duplicate);
    otherwise inserts", "Duplicate insertion returns false and leaves the
    store unchanged". *)
Definition rtp_jitter_buffer_insert (jbuf : RTPJitterBuffer) (buf : GstBuffer)
  : bool * RTPJitterBuffer :=
  if has_seq (rtp_seq buf) jbuf then (false, jbuf)
  else (true, insert_ordered buf jbuf).

(** Modelled from the spec: rtp_jitter_buffer_pop (absent); "removes and
    returns the smallest-seq packet".  On the empty store there is
    nothing to return (NULL). *)
Definition rtp_jitter_buffer_pop (jbuf : RTPJitterBuffer)
  : option (GstBuffer * RTPJitterBuffer) :=
  match jbuf with
  | [] => None
  | x :: rest => Some (x, rest)
  end.

(** Modelled from the spec: rtp_jitter_buffer_num_packets (absent),
    "len()". *)
Definition rtp_jitter_buffer_num_packets (jbuf : RTPJitterBuffer) : Z :=
  Z.of_nat (length jbuf).

(** Modelled from the spec: rtp_jitter_buffer_get_ts_diff (absent); "the
    RTP-timestamp distance between tail and head ..., using 32-bit
    modular subtraction"; 0 on the empty store. *)
Definition rtp_jitter_buffer_get_ts_diff (jbuf : RTPJitterBuffer) : Z :=
  match jbuf with
  | [] => 0
  | x :: _ => to_guint32 (rtp_timestamp (last jbuf x) - rtp_timestamp x)
  end.

(** Modelled from the spec: rtp_jitter_buffer_flush (absent), "discards
    all contents". *)
Definition rtp_jitter_buffer_flush (jbuf : RTPJitterBuffer) : RTPJitterBuffer :=
  [].

End Store.
Export Store.

(** ** The private structure of the element *)

(** The single-shot entry created by gst_clock_new_single_shot_id: its
    time, and whether gst_clock_id_unschedule has been called on it. *)
Record GstClockEntry : Type := mkEntry {
  entry_time : Z;            (* GstClockTime *)
  entry_unscheduled : bool
}.

Definition gst_clock_id_unschedule (id : GstClockEntry) : GstClockEntry :=
  {| entry_time := entry_time id; entry_unscheduled := true |}.

Record GstRtpJitterBufferPrivate : Type := mkPriv {
  jbuf : RTPJitterBuffer;
  (* properties *)
  latency_ms : Z;            (* guint *)
  drop_on_latency : bool;
  ts_offset : Z;             (* gint64 *)
  (* the last seqnum we pushed out *)
  last_popped_seqnum : Z;    (* guint32 *)
  (* the next expected seqnum *)
  next_seqnum : Z;           (* guint32 *)
  (* state *)
  eos : bool;
  (* clock rate and rtp timestamp offset *)
  clock_rate : Z;            (* gint32 *)
  clock_base : Z;            (* gint64 *)
  exttimestamp : Z;          (* guint64 *)
  prev_ts_offset : Z;        (* gint64 *)
  (* when we are shutting down *)
  srcresult : GstFlowReturn;
  blocked : bool;
  (* for sync *)
  segment : GstSegment;
  clock_id : option GstClockEntry;
  waiting_seqnum : Z;        (* guint32 *)
  peer_latency : Z;          (* GstClockTime *)
  (* some accounting *)
  num_late : Z;              (* guint64 *)
  num_duplicates : Z         (* guint64 *)
}.

(** -1 stored in a guint32 field, and what the tests [!= -1] compare with. *)
Definition SEQNUM_NONE : Z := to_guint32 (-1).

(** -1 stored in a guint64 field. *)
Definition CLOCK_TIME_NONE : Z := to_guint64 (-1).

Module Upd.

Definition set_jbuf (p : GstRtpJitterBufferPrivate) (v : RTPJitterBuffer) :=
  mkPriv v (latency_ms p) (drop_on_latency p) (ts_offset p)
    (last_popped_seqnum p) (next_seqnum p) (eos p) (clock_rate p)
    (clock_base p) (exttimestamp p) (prev_ts_offset p) (srcresult p)
    (blocked p) (segment p) (clock_id p) (waiting_seqnum p)
    (peer_latency p) (num_late p) (num_duplicates p).

Definition set_last_popped_seqnum (p : GstRtpJitterBufferPrivate) (v : Z) :=
  mkPriv (jbuf p) (latency_ms p) (drop_on_latency p) (ts_offset p)
    v (next_seqnum p) (eos p) (clock_rate p)
    (clock_base p) (exttimestamp p) (prev_ts_offset p) (srcresult p)
    (blocked p) (segment p) (clock_id p) (waiting_seqnum p)
    (peer_latency p) (num_late p) (num_duplicates p).

Definition set_next_seqnum (p : GstRtpJitterBufferPrivate) (v : Z) :=
  mkPriv (jbuf p) (latency_ms p) (drop_on_latency p) (ts_offset p)
    (last_popped_seqnum p) v (eos p) (clock_rate p)
    (clock_base p) (exttimestamp p) (prev_ts_offset p) (srcresult p)
    (blocked p) (segment p) (clock_id p) (waiting_seqnum p)
    (peer_latency p) (num_late p) (num_duplicates p).

Definition set_eos (p : GstRtpJitterBufferPrivate) (v : bool) :=
  mkPriv (jbuf p) (latency_ms p) (drop_on_latency p) (ts_offset p)
    (last_popped_seqnum p) (next_seqnum p) v (clock_rate p)
    (clock_base p) (exttimestamp p) (prev_ts_offset p) (srcresult p)
    (blocked p) (segment p) (clock_id p) (waiting_seqnum p)
    (peer_latency p) (num_late p) (num_duplicates p).

Definition set_clock_rate (p : GstRtpJitterBufferPrivate) (v : Z) :=
  mkPriv (jbuf p) (latency_ms p) (drop_on_latency p) (ts_offset p)
    (last_popped_seqnum p) (next_seqnum p) (eos p) v
    (clock_base p) (exttimestamp p) (prev_ts_offset p) (srcresult p)
    (blocked p) (segment p) (clock_id p) (waiting_seqnum p)
    (peer_latency p) (num_late p) (num_duplicates p).

Definition set_clock_base (p : GstRtpJitterBufferPrivate) (v : Z) :=
  mkPriv (jbuf p) (latency_ms p) (drop_on_latency p) (ts_offset p)
    (last_popped_seqnum p) (next_seqnum p) (eos p) (clock_rate p)
    v (exttimestamp p) (prev_ts_offset p) (srcresult p)
    (blocked p) (segment p) (clock_id p) (waiting_seqnum p)
    (peer_latency p) (num_late p) (num_duplicates p).

Definition set_exttimestamp (p : GstRtpJitterBufferPrivate) (v : Z) :=
  mkPriv (jbuf p) (latency_ms p) (drop_on_latency p) (ts_offset p)
    (last_popped_seqnum p) (next_seqnum p) (eos p) (clock_rate p)
    (clock_base p) v (prev_ts_offset p) (srcresult p)
    (blocked p) (segment p) (clock_id p) (waiting_seqnum p)
    (peer_latency p) (num_late p) (num_duplicates p).

Definition set_prev_ts_offset (p : GstRtpJitterBufferPrivate) (v : Z) :=
  mkPriv (jbuf p) (latency_ms p) (drop_on_latency p) (ts_offset p)
    (last_popped_seqnum p) (next_seqnum p) (eos p) (clock_rate p)
    (clock_base p) (exttimestamp p) v (srcresult p)
    (blocked p) (segment p) (clock_id p) (waiting_seqnum p)
    (peer_latency p) (num_late p) (num_duplicates p).

Definition set_srcresult (p : GstRtpJitterBufferPrivate) (v : GstFlowReturn) :=
  mkPriv (jbuf p) (latency_ms p) (drop_on_latency p) (ts_offset p)
    (last_popped_seqnum p) (next_seqnum p) (eos p) (clock_rate p)
    (clock_base p) (exttimestamp p) (prev_ts_offset p) v
    (blocked p) (segment p) (clock_id p) (waiting_seqnum p)
    (peer_latency p) (num_late p) (num_duplicates p).

Definition set_segment (p : GstRtpJitterBufferPrivate) (v : GstSegment) :=
  mkPriv (jbuf p) (latency_ms p) (drop_on_latency p) (ts_offset p)
    (last_popped_seqnum p) (next_seqnum p) (eos p) (clock_rate p)
    (clock_base p) (exttimestamp p) (prev_ts_offset p) (srcresult p)
    (blocked p) v (clock_id p) (waiting_seqnum p)
    (peer_latency p) (num_late p) (num_duplicates p).

Definition set_clock_id (p : GstRtpJitterBufferPrivate)
    (v : option GstClockEntry) :=
  mkPriv (jbuf p) (latency_ms p) (drop_on_latency p) (ts_offset p)
    (last_popped_seqnum p) (next_seqnum p) (eos p) (clock_rate p)
    (clock_base p) (exttimestamp p) (prev_ts_offset p) (srcresult p)
    (blocked p) (segment p) v (waiting_seqnum p)
    (peer_latency p) (num_late p) (num_duplicates p).

Definition set_waiting_seqnum (p : GstRtpJitterBufferPrivate) (v : Z) :=
  mkPriv (jbuf p) (latency_ms p) (drop_on_latency p) (ts_offset p)
    (last_popped_seqnum p) (next_seqnum p) (eos p) (clock_rate p)
    (clock_base p) (exttimestamp p) (prev_ts_offset p) (srcresult p)
    (blocked p) (segment p) (clock_id p) v
    (peer_latency p) (num_late p) (num_duplicates p).

Definition set_peer_latency (p : GstRtpJitterBufferPrivate) (v : Z) :=
  mkPriv (jbuf p) (latency_ms p) (drop_on_latency p) (ts_offset p)
    (last_popped_seqnum p) (next_seqnum p) (eos p) (clock_rate p)
    (clock_base p) (exttimestamp p) (prev_ts_offset p) (srcresult p)
    (blocked p) (segment p) (clock_id p) (waiting_seqnum p)
    v (num_late p) (num_duplicates p).

Definition set_num_late (p : GstRtpJitterBufferPrivate) (v : Z) :=
  mkPriv (jbuf p) (latency_ms p) (drop_on_latency p) (ts_offset p)
    (last_popped_seqnum p) (next_seqnum p) (eos p) (clock_rate p)
    (clock_base p) (exttimestamp p) (prev_ts_offset p) (srcresult p)
    (blocked p) (segment p) (clock_id p) (waiting_seqnum p)
    (peer_latency p) v (num_duplicates p).

Definition set_num_duplicates (p : GstRtpJitterBufferPrivate) (v : Z) :=
  mkPriv (jbuf p) (latency_ms p) (drop_on_latency p) (ts_offset p)
    (last_popped_seqnum p) (next_seqnum p) (eos p) (clock_rate p)
    (clock_base p) (exttimestamp p) (prev_ts_offset p) (srcresult p)
    (blocked p) (segment p) (clock_id p) (waiting_seqnum p)
    (peer_latency p) (num_late p) v.

End Upd.
Export Upd.

(** ** Caps and the clock rate *)

(** The fields of the first caps structure that the element reads. *)
Record GstCaps : Type := mkCaps {
  caps_clock_rate : option Z;     (* gint *)
  caps_clock_base : option Z;     (* guint *)
  caps_seqnum_base : option Z     (* guint *)
}.

(** gst_jitter_buffer_sink_parse_caps.  The clock rate is written into the
    private structure before it is checked. *)
Definition gst_jitter_buffer_sink_parse_caps
    (priv : GstRtpJitterBufferPrivate) (caps : GstCaps)
  : bool * GstRtpJitterBufferPrivate :=
  match caps_clock_rate caps with
  | None => (false, priv)
  | Some rate =>
      let priv := set_clock_rate priv rate in
      if clock_rate priv <=? 0 then (false, priv)
      else
        let priv :=
          match caps_clock_base caps with
          | Some val => set_clock_base priv val
          | None => set_clock_base priv (-1)
          end in
        let priv :=
          match caps_seqnum_base caps with
          | Some val => set_next_seqnum priv val
          | None => set_next_seqnum priv SEQNUM_NONE
          end in
        (true, priv)
  end.

(** gst_rtp_jitter_buffer_get_clock_rate; [request_pt_map] is the answer of
    the request-pt-map signal. *)
Definition gst_rtp_jitter_buffer_get_clock_rate
    (request_pt_map : Z -> option GstCaps)
    (priv : GstRtpJitterBufferPrivate) (pt : Z)
  : bool * GstRtpJitterBufferPrivate :=
  match request_pt_map pt with
  | None => (false, priv)
  | Some caps => gst_jitter_buffer_sink_parse_caps priv caps
  end.

(** ** Flushing *)

(** gst_rtp_jitter_buffer_flush_start *)
Definition gst_rtp_jitter_buffer_flush_start (priv : GstRtpJitterBufferPrivate)
  : GstRtpJitterBufferPrivate :=
  let priv := set_srcresult priv GST_FLOW_WRONG_STATE in
  let priv := set_jbuf priv (rtp_jitter_buffer_flush (jbuf priv)) in
  match clock_id priv with
  | Some id => set_clock_id priv (Some (gst_clock_id_unschedule id))
  | None => priv
  end.

(** gst_rtp_jitter_buffer_flush_stop *)
Definition gst_rtp_jitter_buffer_flush_stop (priv : GstRtpJitterBufferPrivate)
  : GstRtpJitterBufferPrivate :=
  let priv := set_srcresult priv GST_FLOW_OK in
  let priv := set_segment priv (gst_segment_init GST_FORMAT_TIME) in
  let priv := set_last_popped_seqnum priv (to_guint32 (-1)) in
  let priv := set_next_seqnum priv (to_guint32 (-1)) in
  let priv := set_clock_rate priv (-1) in
  let priv := set_eos priv false in
  let priv := set_exttimestamp priv (to_guint64 (-1)) in
  priv.

(** The EOS case of gst_rtp_jitter_buffer_sink_event: the returned flag and
    the new state. *)
Definition gst_rtp_jitter_buffer_sink_event_eos (priv : GstRtpJitterBufferPrivate)
  : bool * GstRtpJitterBufferPrivate :=
  let ret := flow_is_ok (srcresult priv) in
  if ret && negb (eos priv) then (ret, set_eos priv true)
  else (ret, priv).

(** ** The chain function (sink pad) *)

(** What gst_rtp_jitter_buffer_chain hands back: the flow return, the
    private structure it leaves, whether JBUF_SIGNAL was issued and whether
    it called gst_clock_id_unschedule. *)
Record ChainResult : Type := mkChain {
  chain_ret : GstFlowReturn;
  chain_priv : GstRtpJitterBufferPrivate;
  chain_signal : bool;
  chain_unschedule : bool
}.

(** The test at the top of the locked part: "let's check if this buffer is
    too late". *)
Definition chain_too_late (priv : GstRtpJitterBufferPrivate) (seqnum : Z) : bool :=
  negb (last_popped_seqnum priv =? SEQNUM_NONE)
  && (priv_compare_rtp_seq_lt (to_guint16 (last_popped_seqnum priv)) seqnum <? 0).

(** The test that opens the drop-on-latency block: latency and
    drop-on-latency set, and the store at least [latency_ts] long. *)
Definition chain_queue_full (priv : GstRtpJitterBufferPrivate) : bool :=
  negb (latency_ms priv =? 0) && drop_on_latency priv
  && (gst_util_uint64_scale_int (latency_ms priv) (clock_rate priv) 1000
      <=? rtp_jitter_buffer_get_ts_diff (jbuf priv)).

(** The drop-on-latency block: "let's drop oldest packet if the queue is
    already full and drop-on-latency is set".  The popped buffer is
    unreffed; unreffing NULL leaves everything as it is. *)
Definition chain_drop_on_latency (priv : GstRtpJitterBufferPrivate)
  : GstRtpJitterBufferPrivate :=
  if negb (latency_ms priv =? 0) && drop_on_latency priv then
    let latency_ts :=
      gst_util_uint64_scale_int (latency_ms priv) (clock_rate priv) 1000 in
    if latency_ts <=? rtp_jitter_buffer_get_ts_diff (jbuf priv) then
      match rtp_jitter_buffer_pop (jbuf priv) with
      | Some (old_buf, rest) => set_jbuf priv rest
      | None => priv
      end
    else priv
  else priv.

(** The end of the locked part, once the packet is in the queue: "let's
    unschedule and unblock any waiting buffers.  We only want to do this if
    there is a currently waiting newer (> seqnum) buffer". *)
Definition chain_unschedule_waiting (priv : GstRtpJitterBufferPrivate)
    (seqnum : Z) : bool * GstRtpJitterBufferPrivate :=
  match clock_id priv with
  | Some id =>
      if seqnum <? waiting_seqnum priv
      then (true, set_clock_id priv (Some (gst_clock_id_unschedule id)))
      else (false, priv)
  | None => (false, priv)
  end.

(** gst_rtp_jitter_buffer_chain *)
Definition gst_rtp_jitter_buffer_chain
    (request_pt_map : Z -> option GstCaps)
    (priv : GstRtpJitterBufferPrivate) (buffer : GstBuffer) : ChainResult :=
  if negb (rtp_valid buffer) then
    (* invalid_buffer *)
    mkChain GST_FLOW_ERROR priv false false
  else
    let priv :=
      if clock_rate priv =? -1 then
        snd (gst_rtp_jitter_buffer_get_clock_rate request_pt_map priv
               (rtp_payload_type buffer))
      else priv in
    if clock_rate priv =? -1 then
      (* not_negotiated *)
      mkChain GST_FLOW_NOT_NEGOTIATED priv false false
    else
      let seqnum := rtp_seq buffer in
      if negb (flow_is_ok (srcresult priv)) then
        (* out_flushing *)
        mkChain (srcresult priv) priv false false
      else if eos priv then
        (* have_eos *)
        mkChain GST_FLOW_UNEXPECTED priv false false
      else if chain_too_late priv seqnum then
        (* too_late *)
        mkChain GST_FLOW_OK
          (set_num_late priv (to_guint64 (num_late priv + 1))) false false
      else
        let priv := chain_drop_on_latency priv in
        match rtp_jitter_buffer_insert (jbuf priv) buffer with
        | (false, _) =>
            (* duplicate *)
            mkChain GST_FLOW_OK
              (set_num_duplicates priv (to_guint64 (num_duplicates priv + 1)))
              false false
        | (true, queue) =>
            let priv := set_jbuf priv queue in
            let '(unscheduled, priv) := chain_unschedule_waiting priv seqnum in
            mkChain GST_FLOW_OK priv true unscheduled
        end.

(** ** The latency query (source pad) *)

(** The GST_QUERY_LATENCY case of gst_rtp_jitter_buffer_query.  [peer] is
    [None] when the sink pad has no peer, [Some None] when the peer refuses
    the query, and otherwise what gst_query_parse_latency reads from the
    answer: live, min_latency, max_latency.  The result is the return
    value, the new state, and the values given to gst_query_set_latency. *)
Definition gst_rtp_jitter_buffer_query_latency
    (priv : GstRtpJitterBufferPrivate)
    (peer : option (option (bool * Z * Z)))
  : bool * GstRtpJitterBufferPrivate * option (bool * Z * Z) :=
  match peer with
  | None => (false, priv, None)
  | Some None => (false, priv, None)
  | Some (Some (us_live, min_latency, max_latency)) =>
      let priv := set_peer_latency priv min_latency in
      let our_latency := to_guint64 (to_guint64 (latency_ms priv) * GST_MSECOND) in
      let min_latency := to_guint64 (min_latency + our_latency) in
      let max_latency :=
        if negb (max_latency =? to_guint64 (-1))
        then to_guint64 (max_latency + to_guint64 (our_latency * GST_MSECOND))
        else max_latency in
      (true, priv, Some (true, min_latency, max_latency))
  end.

(** ** The streaming task (source pad) *)

(** What the task needs from its element: GST_ELEMENT_CLOCK (NULL or not)
    and the base time. *)
Record GstElement : Type := mkElement {
  element_has_clock : bool;
  element_base_time : Z       (* GstClockTime *)
}.

(** How one round of the task ends. *)
Inductive LoopResult : Type :=
| LOOP_PUSH (priv : GstRtpJitterBufferPrivate) (outbuf : GstBuffer)
    (* the lock is released and outbuf goes to gst_pad_push *)
| LOOP_EOS (priv : GstRtpJitterBufferPrivate)
| LOOP_FLUSHING (priv : GstRtpJitterBufferPrivate)
| LOOP_WAITING (priv : GstRtpJitterBufferPrivate)
    (* still waiting when the rounds allotted to the model are used up *).

(** How the handling of a popped buffer ends: with the round finished, or
    with the jump back to the label again. *)
Inductive SyncResult : Type :=
| SYNC_DONE (r : LoopResult)
| SYNC_AGAIN (priv : GstRtpJitterBufferPrivate).

(** A wait on the clock: the time of the entry and the seqnum waited for. *)
Definition ClockWait : Type := (Z * Z)%type.

(** gint ts_offset_rtp as computed under "apply the timestamp offset". *)
Definition ts_offset_rtp_of (priv : GstRtpJitterBufferPrivate) : Z :=
  if 0 <? ts_offset priv then
    to_gint32
      (gst_util_uint64_scale_int (to_guint64 (ts_offset priv))
         (clock_rate priv) GST_SECOND)
  else if ts_offset priv <? 0 then
    to_gint32
      (to_guint64
         (- gst_util_uint64_scale_int
              (to_guint64 (to_gint64 (- ts_offset priv)))
              (clock_rate priv) GST_SECOND))
  else 0.

(** From the label push_buffer to the JBUF_UNLOCK before gst_pad_push. *)
Definition loop_push_buffer (priv : GstRtpJitterBufferPrivate)
    (outbuf : GstBuffer) (seqnum : Z)
  : GstRtpJitterBufferPrivate * GstBuffer :=
  (* check if we are pushing something unexpected *)
  let '(priv, outbuf) :=
    if negb (next_seqnum priv =? SEQNUM_NONE)
       && negb (next_seqnum priv =? seqnum)
    then
      let dropped :=
        priv_compare_rtp_seq_lt (to_guint16 (next_seqnum priv)) seqnum in
      (set_num_late priv (to_guint64 (num_late priv + dropped)),
       set_flag_discont outbuf)
    else (priv, outbuf) in
  (* apply the timestamp offset *)
  let ts_offset_rtp := ts_offset_rtp_of priv in
  let '(priv, outbuf) :=
    if negb (ts_offset_rtp =? 0) then
      let '(priv, outbuf) :=
        if negb (ts_offset priv =? prev_ts_offset priv)
        then (set_prev_ts_offset priv (ts_offset priv), set_flag_discont outbuf)
        else (priv, outbuf) in
      (priv,
       gst_rtp_buffer_set_timestamp outbuf
         (to_guint32 (rtp_timestamp outbuf + ts_offset_rtp)))
    else (priv, outbuf) in
  let priv := set_last_popped_seqnum priv seqnum in
  let priv := set_next_seqnum priv (Z.land (seqnum + 1) 65535) in
  (priv, outbuf).

(** The label pause, taken when gst_pad_push does not return OK. *)
Definition loop_pause (priv : GstRtpJitterBufferPrivate) (result : GstFlowReturn)
  : GstRtpJitterBufferPrivate :=
  if flow_is_ok result then priv else set_srcresult priv result.

Section Task.

(** gst_rtp_buffer_ext_timestamp of the RTP library: from the stored
    extended timestamp and a 32-bit timestamp, the new extended
    timestamp, which is both stored and returned. *)
Variable gst_rtp_buffer_ext_timestamp : Z -> Z -> Z.

(** gst_segment_to_running_time of the core library. *)
Variable gst_segment_to_running_time : GstSegment -> GstFormat -> Z -> Z.

(** What the other threads do to the private structure while the task
    has released the lock: in JBUF_WAIT and in gst_clock_id_wait. *)
Variable jbuf_wait : GstRtpJitterBufferPrivate -> GstRtpJitterBufferPrivate.
Variable clock_id_wait : GstRtpJitterBufferPrivate -> GstRtpJitterBufferPrivate.

Variable element : GstElement.

(** gst_clock_id_wait answers GST_CLOCK_UNSCHEDULED when the entry was
    unscheduled, and otherwise that its time was reached. *)
Definition gst_clock_id_wait_result (priv : GstRtpJitterBufferPrivate)
  : GstClockReturn :=
  match clock_id priv with
  | Some id => if entry_unscheduled id then GST_CLOCK_UNSCHEDULED else GST_CLOCK_OK
  | None => GST_CLOCK_OK
  end.

(** The running time of a popped buffer, before any latency is added:
    the clock base is taken from the first timestamp when it is not
    known, and is part of the state that results. *)
Definition loop_running_time (priv : GstRtpJitterBufferPrivate)
    (exttimestamp : Z) : GstRtpJitterBufferPrivate * Z :=
  let priv :=
    if clock_base priv =? -1
    then set_clock_base priv (to_gint64 exttimestamp)
    else priv in
  let exttimestamp := to_guint64 (exttimestamp - clock_base priv) in
  let timestamp :=
    gst_util_uint64_scale_int exttimestamp GST_SECOND (clock_rate priv) in
  (priv,
   to_gint64 (gst_segment_to_running_time (segment priv) GST_FORMAT_TIME
                timestamp)).

(** What happens to a buffer once it is popped, up to the point where
    the task either pushes it, starts again or finds itself flushing,
    together with the waits on the clock it went through. *)
Definition loop_sync (priv : GstRtpJitterBufferPrivate) (outbuf : GstBuffer)
  : list ClockWait * SyncResult :=
  let seqnum := rtp_seq outbuf in
  let rtp_time := rtp_timestamp outbuf in
  let exttimestamp :=
    gst_rtp_buffer_ext_timestamp (exttimestamp priv) rtp_time in
  let priv := set_exttimestamp priv exttimestamp in
  if (next_seqnum priv =? SEQNUM_NONE) || negb (next_seqnum priv =? seqnum)
  then
    let '(priv, running_time) := loop_running_time priv exttimestamp in
    if negb (element_has_clock element) then
      (* let's just push if there is no clock *)
      let '(priv, outbuf) := loop_push_buffer priv outbuf seqnum in
      ([], SYNC_DONE (LOOP_PUSH priv outbuf))
    else
      (* add latency, this includes our own latency and the peer latency *)
      let running_time :=
        to_gint64 (running_time + latency_ms priv * GST_MSECOND) in
      let running_time := to_gint64 (running_time + peer_latency priv) in
      (* prepare for sync against clock *)
      let running_time :=
        to_gint64 (running_time + element_base_time element) in
      (* create an entry for the clock *)
      let id := mkEntry (to_guint64 running_time) false in
      let priv := set_clock_id priv (Some id) in
      let priv := set_waiting_seqnum priv seqnum in
      (* the lock is released while waiting *)
      let priv := clock_id_wait priv in
      let ret := gst_clock_id_wait_result priv in
      let priv := set_clock_id priv None in
      let priv := set_waiting_seqnum priv SEQNUM_NONE in
      let waits := [(to_guint64 running_time, seqnum)] in
      if negb (flow_is_ok (srcresult priv)) then
        (waits, SYNC_DONE (LOOP_FLUSHING priv))
      else if clock_is_unscheduled ret then
        (* reinsert popped buffer into queue *)
        match rtp_jitter_buffer_insert (jbuf priv) outbuf with
        | (false, _) =>
            (waits,
             SYNC_AGAIN
               (set_num_duplicates priv
                  (to_guint64 (num_duplicates priv + 1))))
        | (true, queue) => (waits, SYNC_AGAIN (set_jbuf priv queue))
        end
      else
        let '(priv, outbuf) := loop_push_buffer priv outbuf seqnum in
        (waits, SYNC_DONE (LOOP_PUSH priv outbuf))
  else
    let '(priv, outbuf) := loop_push_buffer priv outbuf seqnum in
    ([], SYNC_DONE (LOOP_PUSH priv outbuf)).

(** From the label again on.  Every release of the lock (JBUF_WAIT, the
    wait on the clock followed by the jump to again) uses up one of the
    [rounds]. *)
Fixpoint loop_again (rounds : nat) (priv : GstRtpJitterBufferPrivate)
  : list ClockWait * LoopResult :=
  match rounds with
  | O => ([], LOOP_WAITING priv)
  | S rounds =>
      if negb (blocked priv)
         && (0 <? rtp_jitter_buffer_num_packets (jbuf priv))
      then
        (* pop a buffer, we must have a buffer now *)
        match rtp_jitter_buffer_pop (jbuf priv) with
        | None => ([], LOOP_WAITING priv)
        | Some (outbuf, queue) =>
            match loop_sync (set_jbuf priv queue) outbuf with
            | (waits, SYNC_DONE r) => (waits, r)
            | (waits, SYNC_AGAIN priv) =>
                let '(more, r) := loop_again rounds priv in
                (waits ++ more, r)
            end
        end
      else if negb (blocked priv) && eos priv then
        (* do_eos *)
        ([], LOOP_EOS (set_srcresult priv GST_FLOW_UNEXPECTED))
      else
        (* JBUF_WAIT_CHECK *)
        let priv := jbuf_wait priv in
        if negb (flow_is_ok (srcresult priv)) then ([], LOOP_FLUSHING priv)
        else loop_again rounds priv
  end.

(** gst_rtp_jitter_buffer_loop, up to gst_pad_push. *)
Definition gst_rtp_jitter_buffer_loop (rounds : nat)
    (priv : GstRtpJitterBufferPrivate) : list ClockWait * LoopResult :=
  (* JBUF_LOCK_CHECK *)
  if negb (flow_is_ok (srcresult priv)) then ([], LOOP_FLUSHING priv)
  else loop_again rounds priv.

End Task.

(** The ts-offset case of gst_rtp_jitter_buffer_set_property. *)
Definition gst_rtp_jitter_buffer_set_ts_offset
    (p : GstRtpJitterBufferPrivate) (v : Z) : GstRtpJitterBufferPrivate :=
  mkPriv (jbuf p) (latency_ms p) (drop_on_latency p) v
    (last_popped_seqnum p) (next_seqnum p) (eos p) (clock_rate p)
    (clock_base p) (exttimestamp p) (prev_ts_offset p) (srcresult p)
    (blocked p) (segment p) (clock_id p) (waiting_seqnum p)
    (peer_latency p) (num_late p) (num_duplicates p).

(** What the gap test at the label push_buffer finds. *)
Definition loop_gap (priv : GstRtpJitterBufferPrivate) (seqnum : Z) : bool :=
  negb (next_seqnum priv =? SEQNUM_NONE) && negb (next_seqnum priv =? seqnum).

(** ** Clearing the payload type map, activation, state changes *)

(** gst_rtp_jitter_buffer_clear_pt_map: "this will trigger a new pt-map
    request signal". *)
Definition gst_rtp_jitter_buffer_clear_pt_map (priv : GstRtpJitterBufferPrivate)
  : GstRtpJitterBufferPrivate :=
  set_clock_rate priv (-1).

(** gst_rtp_jitter_buffer_src_activate_push: the returned flag and the new
    state; [stop_task] is what gst_pad_stop_task answers. *)
Definition gst_rtp_jitter_buffer_src_activate_push (stop_task : bool)
    (priv : GstRtpJitterBufferPrivate) (active : bool)
  : bool * GstRtpJitterBufferPrivate :=
  if active then
    (* allow data processing, start pushing out buffers *)
    (true, gst_rtp_jitter_buffer_flush_stop priv)
  else
    (* make sure all data processing stops ASAP *)
    (stop_task, gst_rtp_jitter_buffer_flush_start priv).

Inductive GstStateChange : Type :=
| GST_STATE_CHANGE_NULL_TO_READY
| GST_STATE_CHANGE_READY_TO_PAUSED
| GST_STATE_CHANGE_PAUSED_TO_PLAYING
| GST_STATE_CHANGE_PLAYING_TO_PAUSED
| GST_STATE_CHANGE_PAUSED_TO_READY
| GST_STATE_CHANGE_READY_TO_NULL.

Inductive GstStateChangeReturn : Type :=
| GST_STATE_CHANGE_FAILURE
| GST_STATE_CHANGE_SUCCESS
| GST_STATE_CHANGE_ASYNC
| GST_STATE_CHANGE_NO_PREROLL.

Definition state_change_failed (r : GstStateChangeReturn) : bool :=
  match r with GST_STATE_CHANGE_FAILURE => true | _ => false end.

Definition set_blocked (p : GstRtpJitterBufferPrivate) (v : bool) :=
  mkPriv (jbuf p) (latency_ms p) (drop_on_latency p) (ts_offset p)
    (last_popped_seqnum p) (next_seqnum p) (eos p) (clock_rate p)
    (clock_base p) (exttimestamp p) (prev_ts_offset p) (srcresult p)
    v (segment p) (clock_id p) (waiting_seqnum p)
    (peer_latency p) (num_late p) (num_duplicates p).

(** The first switch of gst_rtp_jitter_buffer_change_state, before the
    parent class is called. *)
Definition change_state_upwards (priv : GstRtpJitterBufferPrivate)
    (transition : GstStateChange) : GstRtpJitterBufferPrivate :=
  match transition with
  | GST_STATE_CHANGE_READY_TO_PAUSED =>
      (* reset negotiated values *)
      let priv := set_clock_rate priv (-1) in
      let priv := set_clock_base priv (-1) in
      let priv := set_peer_latency priv 0 in
      (* block until we go to PLAYING *)
      let priv := set_blocked priv true in
      set_exttimestamp priv (to_guint64 (-1))
  | GST_STATE_CHANGE_PAUSED_TO_PLAYING =>
      (* unblock to allow streaming in PLAYING *)
      set_blocked priv false
  | _ => priv
  end.

(** gst_rtp_jitter_buffer_change_state.  [parent_change_state] is the
    change_state of the parent class, which may run the pad activation
    functions and so gets and returns the private structure. *)
Definition gst_rtp_jitter_buffer_change_state
    (parent_change_state :
       GstStateChange -> GstRtpJitterBufferPrivate
       -> GstStateChangeReturn * GstRtpJitterBufferPrivate)
    (priv : GstRtpJitterBufferPrivate) (transition : GstStateChange)
  : GstStateChangeReturn * GstRtpJitterBufferPrivate :=
  let priv := change_state_upwards priv transition in
  let '(ret, priv) := parent_change_state transition priv in
  match transition with
  | GST_STATE_CHANGE_READY_TO_PAUSED =>
      (* we are a live element because we sync to the clock *)
      (if negb (state_change_failed ret) then GST_STATE_CHANGE_NO_PREROLL else ret,
       priv)
  | GST_STATE_CHANGE_PLAYING_TO_PAUSED =>
      (* block to stop streaming when PAUSED *)
      let priv := set_blocked priv true in
      (if negb (state_change_failed ret) then GST_STATE_CHANGE_NO_PREROLL else ret,
       priv)
  | _ => (ret, priv)
  end.

(** ** Events on the sink pad *)

Inductive GstEvent : Type :=
| GST_EVENT_NEWSEGMENT (update : bool) (rate arate : Z * Z) (format : GstFormat)
    (start stop time : Z)
| GST_EVENT_FLUSH_START
| GST_EVENT_FLUSH_STOP
| GST_EVENT_EOS
| GST_EVENT_OTHER (type : Z).

(** What gst_rtp_jitter_buffer_sink_event hands back: its return value,
    the new state, and the event it gave to gst_pad_push_event, if any. *)
Record EventResult : Type := mkEvent {
  event_ret : bool;
  event_priv : GstRtpJitterBufferPrivate;
  event_pushed : option GstEvent
}.

Section SinkEvent.

(** gst_segment_set_newsegment_full of the core library. *)
Variable gst_segment_set_newsegment_full :
  GstSegment -> bool -> Z * Z -> Z * Z -> GstFormat -> Z -> Z -> Z -> GstSegment.

(** What gst_pad_push_event on the source pad answers. *)
Variable gst_pad_push_event : GstEvent -> bool.

(** gst_rtp_jitter_buffer_sink_event *)
Definition gst_rtp_jitter_buffer_sink_event
    (priv : GstRtpJitterBufferPrivate) (event : GstEvent) : EventResult :=
  match event with
  | GST_EVENT_NEWSEGMENT update rate arate format start stop time =>
      match format with
      | GST_FORMAT_TIME =>
          let priv :=
            set_segment priv
              (gst_segment_set_newsegment_full (segment priv) update rate arate
                 format start stop time) in
          mkEvent (gst_pad_push_event event) priv (Some event)
      | _ =>
          (* newseg_wrong_format *)
          mkEvent false priv None
      end
  | GST_EVENT_FLUSH_START =>
      let priv := gst_rtp_jitter_buffer_flush_start priv in
      mkEvent (gst_pad_push_event event) priv (Some event)
  | GST_EVENT_FLUSH_STOP =>
      let ret := gst_pad_push_event event in
      let '(ret, priv) := gst_rtp_jitter_buffer_src_activate_push true priv true in
      mkEvent ret priv (Some event)
  | GST_EVENT_EOS =>
      let '(ret, priv) := gst_rtp_jitter_buffer_sink_event_eos priv in
      mkEvent ret priv None
  | GST_EVENT_OTHER _ =>
      mkEvent (gst_pad_push_event event) priv (Some event)
  end.

End SinkEvent.

(** ** Properties of the object *)

Inductive PropId : Type :=
| PROP_0
| PROP_LATENCY
| PROP_DROP_ON_LATENCY
| PROP_TS_OFFSET.

Inductive GValue : Type :=
| G_VALUE_UINT (v : Z)
| G_VALUE_BOOLEAN (v : bool)
| G_VALUE_INT64 (v : Z).

(** The getters of GValue answer 0 or FALSE on a value of another type. *)
Definition g_value_get_uint (value : GValue) : Z :=
  match value with G_VALUE_UINT v => v | _ => 0 end.

Definition g_value_get_boolean (value : GValue) : bool :=
  match value with G_VALUE_BOOLEAN v => v | _ => false end.

Definition g_value_get_int64 (value : GValue) : Z :=
  match value with G_VALUE_INT64 v => v | _ => 0 end.

Definition set_latency_ms (p : GstRtpJitterBufferPrivate) (v : Z) :=
  mkPriv (jbuf p) v (drop_on_latency p) (ts_offset p)
    (last_popped_seqnum p) (next_seqnum p) (eos p) (clock_rate p)
    (clock_base p) (exttimestamp p) (prev_ts_offset p) (srcresult p)
    (blocked p) (segment p) (clock_id p) (waiting_seqnum p)
    (peer_latency p) (num_late p) (num_duplicates p).

Definition set_drop_on_latency (p : GstRtpJitterBufferPrivate) (v : bool) :=
  mkPriv (jbuf p) (latency_ms p) v (ts_offset p)
    (last_popped_seqnum p) (next_seqnum p) (eos p) (clock_rate p)
    (clock_base p) (exttimestamp p) (prev_ts_offset p) (srcresult p)
    (blocked p) (segment p) (clock_id p) (waiting_seqnum p)
    (peer_latency p) (num_late p) (num_duplicates p).

(** gst_rtp_jitter_buffer_set_property: the new state, and whether a
    latency message was posted on the bus. *)
Definition gst_rtp_jitter_buffer_set_property
    (priv : GstRtpJitterBufferPrivate) (prop_id : PropId) (value : GValue)
  : GstRtpJitterBufferPrivate * bool :=
  match prop_id with
  | PROP_LATENCY =>
      let new_latency := g_value_get_uint value in
      let old_latency := latency_ms priv in
      let priv := set_latency_ms priv new_latency in
      (priv, negb (new_latency =? old_latency))
  | PROP_DROP_ON_LATENCY =>
      (set_drop_on_latency priv (g_value_get_boolean value), false)
  | PROP_TS_OFFSET =>
      (gst_rtp_jitter_buffer_set_ts_offset priv (g_value_get_int64 value), false)
  | PROP_0 =>
      (* G_OBJECT_WARN_INVALID_PROPERTY_ID *)
      (priv, false)
  end.

(** gst_rtp_jitter_buffer_get_property: what is stored into the value,
    nothing for an invalid id. *)
Definition gst_rtp_jitter_buffer_get_property
    (priv : GstRtpJitterBufferPrivate) (prop_id : PropId) : option GValue :=
  match prop_id with
  | PROP_LATENCY => Some (G_VALUE_UINT (latency_ms priv))
  | PROP_DROP_ON_LATENCY => Some (G_VALUE_BOOLEAN (drop_on_latency priv))
  | PROP_TS_OFFSET => Some (G_VALUE_INT64 (ts_offset priv))
  | PROP_0 => None
  end.

(** ** Concrete states used in the examples below *)

Module Examples.

(** An RTP packet with payload type 96. *)
Definition packet (seqnum ts : Z) : GstBuffer := mkBuffer true seqnum ts 96 false.

(** The element after flush-stop and caps with the given clock rate,
    unblocked, with the default properties except for the latency. *)
Definition started (latency rate : Z) : GstRtpJitterBufferPrivate :=
  {| jbuf := rtp_jitter_buffer_new;
     latency_ms := latency;
     drop_on_latency := false;
     ts_offset := 0;
     last_popped_seqnum := SEQNUM_NONE;
     next_seqnum := SEQNUM_NONE;
     eos := false;
     clock_rate := rate;
     clock_base := -1;
     exttimestamp := CLOCK_TIME_NONE;
     prev_ts_offset := 0;
     srcresult := GST_FLOW_OK;
     blocked := false;
     segment := gst_segment_init GST_FORMAT_TIME;
     clock_id := None;
     waiting_seqnum := SEQNUM_NONE;
     peer_latency := 0;
     num_late := 0;
     num_duplicates := 0 |}.

(** The same with drop-on-latency set. *)
Definition dropping (latency rate : Z) : GstRtpJitterBufferPrivate :=
  mkPriv rtp_jitter_buffer_new latency true 0 SEQNUM_NONE SEQNUM_NONE false
    rate (-1) CLOCK_TIME_NONE 0 GST_FLOW_OK false
    (gst_segment_init GST_FORMAT_TIME) None SEQNUM_NONE 0 0 0.

(** No answer to request-pt-map. *)
Definition no_pt_map : Z -> option GstCaps := fun _ => None.

(** Stand-ins for the two library functions the task is given: the
    32-bit timestamp taken as it is, and running time equal to the
    timestamp. *)
Definition ext_timestamp_id : Z -> Z -> Z := fun _ ts => ts.
Definition running_time_id : GstSegment -> GstFormat -> Z -> Z :=
  fun _ _ t => t.

(** Nothing happens while the task has released the lock. *)
Definition quiet : GstRtpJitterBufferPrivate -> GstRtpJitterBufferPrivate :=
  fun p => p.

Definition with_clock : GstElement := mkElement true 0.

(** The private structure a round of the task leaves, and the buffer it
    pushes, if any. *)
Definition priv_of (r : list ClockWait * LoopResult) : GstRtpJitterBufferPrivate :=
  match snd r with
  | LOOP_PUSH p _ => p
  | LOOP_EOS p => p
  | LOOP_FLUSHING p => p
  | LOOP_WAITING p => p
  end.

Definition pushed_seqnum (r : list ClockWait * LoopResult) : option Z :=
  match snd r with
  | LOOP_PUSH _ outbuf => Some (rtp_seq outbuf)
  | _ => None
  end.

(** One round of the task of an element with a clock, during whose wait
    on the clock the other threads do [during_wait]. *)
Definition round
    (during_wait : GstRtpJitterBufferPrivate -> GstRtpJitterBufferPrivate)
    (priv : GstRtpJitterBufferPrivate) : list ClockWait * LoopResult :=
  gst_rtp_jitter_buffer_loop ext_timestamp_id running_time_id quiet
    during_wait with_clock 1 priv.

(** The state after pushing the packets of a list, in order. *)
Definition pushed (priv : GstRtpJitterBufferPrivate) (l : list GstBuffer)
  : GstRtpJitterBufferPrivate :=
  fold_left
    (fun p b => chain_priv (gst_rtp_jitter_buffer_chain no_pt_map p b))
    l priv.

(** The arrival of one packet while the task sleeps. *)
Definition arrival (b : GstBuffer)
  : GstRtpJitterBufferPrivate -> GstRtpJitterBufferPrivate :=
  fun p => pushed p [b].

End Examples.

(** * Properties *)

(** ** Integer conversions *)

Lemma to_guint16_id (z : Z) : is_guint16 z -> to_guint16 z = z.
Proof.
  unfold is_guint16, to_guint16, G_MAXUINT16. intros H.
  apply Z.mod_small. lia.
Qed.

Lemma to_guint32_id (z : Z) : is_guint32 z -> to_guint32 z = z.
Proof.
  unfold is_guint32, to_guint32, G_MAXUINT32. intros H.
  apply Z.mod_small. lia.
Qed.

Lemma to_guint64_id (z : Z) : is_guint64 z -> to_guint64 z = z.
Proof.
  unfold is_guint64, to_guint64, G_MAXUINT64. intros H.
  apply Z.mod_small. lia.
Qed.

Lemma to_gint64_id (z : Z) : is_gint64 z -> to_gint64 z = z.
Proof.
  unfold is_gint64, to_gint64. intros H.
  rewrite Z.mod_small; lia.
Qed.

Lemma to_gint32_cong (z : Z) : to_guint32 (to_gint32 z) = to_guint32 z.
Proof.
  unfold to_guint32, to_gint32.
  rewrite <- (Z.add_opp_r _ (2 ^ 31)).
  rewrite <- Zplus_mod_idemp_l, Z.mod_mod by lia.
  rewrite Zplus_mod_idemp_l.
  f_equal; lia.
Qed.

Lemma to_guint32_add_gint32 (t z : Z) :
  to_guint32 (t + to_gint32 z) = to_guint32 (t + z).
Proof.
  unfold to_guint32.
  rewrite <- Zplus_mod_idemp_r.
  fold (to_guint32 (to_gint32 z)). rewrite to_gint32_cong.
  unfold to_guint32. rewrite Zplus_mod_idemp_r. reflexivity.
Qed.

Lemma SEQNUM_NONE_value : SEQNUM_NONE = 4294967295.
Proof. reflexivity. Qed.

Lemma land_65535 (z : Z) : Z.land z 65535 = z mod 2 ^ 16.
Proof. change 65535 with (Z.ones 16). apply Z.land_ones. lia. Qed.

(** ** Sequence number comparison *)

(** Where the two sequence numbers are less than half the range apart, the
    function is the signed 16-bit difference. *)
Lemma priv_compare_rtp_seq_lt_near (a b : Z) :
  is_guint16 a -> is_guint16 b -> Z.abs (b - a) < 2 ^ 15 ->
  priv_compare_rtp_seq_lt a b = seq_diff_spec a b.
Proof.
  unfold is_guint16, G_MAXUINT16, priv_compare_rtp_seq_lt, seq_diff_spec, to_gint16.
  intros Ha Hb Hd.
  destruct (Z.ltb_spec (2 ^ 15) (Z.abs (b - a))) as [Hlt | Hge]; [lia |].
  rewrite Z.mod_small; lia.
Qed.

(** Where they are more than half the range apart, it returns a - b: the
    sign is that of the signed 16-bit difference, the magnitude is what is
    left of the range. *)
Lemma priv_compare_rtp_seq_lt_far (a b : Z) :
  is_guint16 a -> is_guint16 b -> 2 ^ 15 < Z.abs (b - a) ->
  priv_compare_rtp_seq_lt a b = a - b
  /\ Z.sgn (priv_compare_rtp_seq_lt a b) = Z.sgn (seq_diff_spec a b)
  /\ Z.abs (priv_compare_rtp_seq_lt a b) = 2 ^ 16 - Z.abs (seq_diff_spec a b).
Proof.
  unfold is_guint16, G_MAXUINT16, priv_compare_rtp_seq_lt, seq_diff_spec, to_gint16.
  intros Ha Hb Hd.
  destruct (Z.ltb_spec (2 ^ 15) (Z.abs (b - a))) as [Hlt | Hge]; [| lia].
  split; [reflexivity |].
  destruct (Z.lt_ge_cases (b - a) 0) as [Hneg | Hpos].
  - replace ((b - a + 2 ^ 15) mod 2 ^ 16) with (b - a + 2 ^ 15 + 2 ^ 16).
    + split; lia.
    + apply Zmod_unique with (q := -1); lia.
  - replace ((b - a + 2 ^ 15) mod 2 ^ 16) with (b - a + 2 ^ 15 - 2 ^ 16).
    + split; lia.
    + apply Zmod_unique with (q := 1); lia.
Qed.

(** The function is zero only on equal sequence numbers. *)
Lemma priv_compare_rtp_seq_lt_zero (a b : Z) :
  priv_compare_rtp_seq_lt a b = 0 <-> a = b.
Proof.
  unfold priv_compare_rtp_seq_lt.
  destruct (Z.ltb_spec (2 ^ 15) (Z.abs (b - a))); lia.
Qed.

(** C3.  Across the wrap the function does not return the number of steps
    from a to b: from 65535 to 0 is one step, the signed 16-bit difference
    is 1, and the function returns 65535; a packet 0 pushed when 65535 was
    expected adds 65535 to num_late. *)
Theorem priv_compare_rtp_seq_lt_wrap_count :
  priv_compare_rtp_seq_lt 65535 0 = 65535
  /\ seq_diff_spec 65535 0 = 1
  /\ num_late
       (fst (loop_push_buffer
               (set_next_seqnum (Examples.started 100 8000) 65535)
               (Examples.packet 0 8000) 0)) = 65535.
Proof. repeat split; vm_compute; reflexivity. Qed.

(** ** The chain function *)

(** Once the buffer is valid, the clock rate known, and the element
    neither flushing nor at EOS, the chain function is its locked part
    from the too-late test on. *)
Lemma chain_locked_part (request_pt_map : Z -> option GstCaps)
    (priv : GstRtpJitterBufferPrivate) (buffer : GstBuffer) :
  rtp_valid buffer = true ->
  clock_rate priv <> -1 ->
  srcresult priv = GST_FLOW_OK ->
  eos priv = false ->
  gst_rtp_jitter_buffer_chain request_pt_map priv buffer =
    if chain_too_late priv (rtp_seq buffer) then
      mkChain GST_FLOW_OK
        (set_num_late priv (to_guint64 (num_late priv + 1))) false false
    else
      match rtp_jitter_buffer_insert (jbuf (chain_drop_on_latency priv)) buffer with
      | (false, _) =>
          mkChain GST_FLOW_OK
            (set_num_duplicates (chain_drop_on_latency priv)
               (to_guint64 (num_duplicates (chain_drop_on_latency priv) + 1)))
            false false
      | (true, queue) =>
          let '(unscheduled, p) :=
            chain_unschedule_waiting
              (set_jbuf (chain_drop_on_latency priv) queue) (rtp_seq buffer) in
          mkChain GST_FLOW_OK p true unscheduled
      end.
Proof.
  intros Hvalid Hrate Hres Heos.
  unfold gst_rtp_jitter_buffer_chain.
  apply Z.eqb_neq in Hrate.
  rewrite Hvalid. cbn [negb]. rewrite Hrate. cbv zeta. rewrite Hrate.
  rewrite Hres, Heos. cbn [flow_is_ok negb].
  reflexivity.
Qed.

(** The drop-on-latency block in terms of its test. *)
Lemma chain_drop_on_latency_eq (priv : GstRtpJitterBufferPrivate) :
  chain_drop_on_latency priv =
    if chain_queue_full priv
    then set_jbuf priv (tl (jbuf priv))
    else priv.
Proof.
  unfold chain_drop_on_latency, chain_queue_full.
  destruct (negb (latency_ms priv =? 0) && drop_on_latency priv); cbn [andb];
    [| reflexivity].
  destruct (_ <=? _); [| reflexivity].
  destruct priv as [q ? ? ? ? ? ? ? ? ? ? ? ? ? ? ? ? ? ?].
  destruct q; reflexivity.
Qed.

(** A packet strictly before the last popped one is dropped as too late:
    the store is left alone and num_late goes up by one. *)
Lemma chain_too_late_dropped (request_pt_map : Z -> option GstCaps)
    (priv : GstRtpJitterBufferPrivate) (buffer : GstBuffer) :
  rtp_valid buffer = true ->
  clock_rate priv <> -1 ->
  srcresult priv = GST_FLOW_OK ->
  eos priv = false ->
  last_popped_seqnum priv <> SEQNUM_NONE ->
  priv_compare_rtp_seq_lt (to_guint16 (last_popped_seqnum priv)) (rtp_seq buffer) < 0 ->
  gst_rtp_jitter_buffer_chain request_pt_map priv buffer =
    mkChain GST_FLOW_OK (set_num_late priv (to_guint64 (num_late priv + 1)))
      false false.
Proof.
  intros Hvalid Hrate Hres Heos Hlast Hcmp.
  rewrite chain_locked_part by assumption.
  unfold chain_too_late.
  destruct (Z.eqb_spec (last_popped_seqnum priv) SEQNUM_NONE); [contradiction |].
  destruct (Z.ltb_spec (priv_compare_rtp_seq_lt
                          (to_guint16 (last_popped_seqnum priv))
                          (rtp_seq buffer)) 0); [reflexivity | lia].
Qed.

(** A packet with the very seqnum that was popped last is not too late for
    the chain function. *)
Lemma chain_too_late_same_seqnum (priv : GstRtpJitterBufferPrivate) (seqnum : Z) :
  is_guint16 seqnum ->
  last_popped_seqnum priv = seqnum ->
  chain_too_late priv seqnum = false.
Proof.
  intros Hs Hl. unfold chain_too_late. rewrite Hl, to_guint16_id by assumption.
  replace (priv_compare_rtp_seq_lt seqnum seqnum) with 0.
  - rewrite andb_false_r. reflexivity.
  - symmetry. apply priv_compare_rtp_seq_lt_zero. reflexivity.
Qed.

(** C1.  Packet 500 is pushed and released, so that 500 is the seqnum
    popped last and 501 the expected one.  A second packet 500 is then not
    dropped as too late: the chain function returns OK, the packet is in
    the store and num_late is as it was; the next round of the task waits
    for it and pushes 500 once more, and num_late has wrapped around to
    2^64 - 1. *)
Theorem chain_accepts_last_popped_seqnum :
  let priv :=
    Examples.priv_of
      (Examples.round Examples.quiet
         (Examples.pushed (Examples.started 100 8000)
            [Examples.packet 500 8000])) in
  let r :=
    gst_rtp_jitter_buffer_chain Examples.no_pt_map priv (Examples.packet 500 8000) in
  (last_popped_seqnum priv = 500 /\ next_seqnum priv = 501 /\ jbuf priv = [])
  /\ seq_diff_spec (last_popped_seqnum priv) 500 = 0
  /\ chain_ret r = GST_FLOW_OK
  /\ jbuf (chain_priv r) = [Examples.packet 500 8000]
  /\ num_late (chain_priv r) = num_late priv
  /\ Examples.pushed_seqnum (Examples.round Examples.quiet (chain_priv r))
     = Some 500
  /\ num_late (Examples.priv_of (Examples.round Examples.quiet (chain_priv r)))
     = G_MAXUINT64.
Proof.
  cbv zeta.
  split; [repeat apply conj; vm_compute; reflexivity |].
  do 5 (split; [vm_compute; reflexivity |]).
  vm_compute. reflexivity.
Qed.

(** Whether a push that inserts its packet unschedules the pending wait is
    decided by the plain comparison of the two numbers. *)
Lemma chain_unschedule_waiting_plain (priv : GstRtpJitterBufferPrivate)
    (id : GstClockEntry) (seqnum : Z) :
  clock_id priv = Some id ->
  fst (chain_unschedule_waiting priv seqnum) = true
  <-> seqnum < waiting_seqnum priv.
Proof.
  intros Hid. unfold chain_unschedule_waiting. rewrite Hid.
  destruct (Z.ltb_spec seqnum (waiting_seqnum priv)); cbn [fst]; split;
    intros; try lia; try reflexivity; discriminate.
Qed.

(** C2.  While the task waits for seqnum 0, packet 65535 (one step before
    0) is inserted and the wait is not unscheduled; while it waits for
    65535, packet 0 (one step after) is inserted and the wait is
    unscheduled.  In a run: packet 0 is in the store, the task sleeps on
    its deadline, packet 65535 arrives meanwhile; the task pushes 0 and,
    in its next round, 65535. *)
Theorem chain_unschedule_not_wrap_aware :
  let waiting (w : Z) :=
    set_waiting_seqnum
      (set_clock_id (Examples.started 100 8000)
         (Some (mkEntry 100000000 false))) w in
  let early :=
    gst_rtp_jitter_buffer_chain Examples.no_pt_map (waiting 0)
      (Examples.packet 65535 7840) in
  let later :=
    gst_rtp_jitter_buffer_chain Examples.no_pt_map (waiting 65535)
      (Examples.packet 0 8160) in
  let first :=
    Examples.round (Examples.arrival (Examples.packet 65535 7840))
      (Examples.pushed (Examples.started 100 8000) [Examples.packet 0 8000]) in
  let second := Examples.round Examples.quiet (Examples.priv_of first) in
  (seq_diff_spec 65535 0 > 0
   /\ chain_ret early = GST_FLOW_OK
   /\ jbuf (chain_priv early) = [Examples.packet 65535 7840]
   /\ chain_unschedule early = false
   /\ clock_id (chain_priv early) = Some (mkEntry 100000000 false))
  /\ (seq_diff_spec 0 65535 < 0
      /\ chain_ret later = GST_FLOW_OK
      /\ jbuf (chain_priv later) = [Examples.packet 0 8160]
      /\ chain_unschedule later = true
      /\ clock_id (chain_priv later) = Some (mkEntry 100000000 true))
  /\ (fst first = [(100000000, 0)]
      /\ Examples.pushed_seqnum first = Some 0
      /\ Examples.pushed_seqnum second = Some 65535).
Proof. cbv zeta. repeat apply conj; vm_compute; reflexivity. Qed.

(** ** The latency query *)

(** What the query reports when nothing wraps around: the minimum grows by
    the latency in nanoseconds, a bounded maximum by the latency in
    nanoseconds times GST_MSECOND once more, and an unbounded maximum stays
    unbounded. *)
Lemma query_latency_reported (priv : GstRtpJitterBufferPrivate)
    (live : bool) (min_latency max_latency : Z) :
  is_guint32 (latency_ms priv) ->
  0 <= min_latency -> min_latency + latency_ms priv * GST_MSECOND <= G_MAXUINT64 ->
  0 <= max_latency ->
  (max_latency <> G_MAXUINT64 ->
   max_latency + latency_ms priv * GST_MSECOND * GST_MSECOND <= G_MAXUINT64) ->
  snd (gst_rtp_jitter_buffer_query_latency priv
         (Some (Some (live, min_latency, max_latency))))
  = Some (true,
          min_latency + latency_ms priv * GST_MSECOND,
          if max_latency =? G_MAXUINT64 then G_MAXUINT64
          else max_latency + latency_ms priv * GST_MSECOND * GST_MSECOND).
Proof.
  unfold is_guint32, G_MAXUINT32, G_MAXUINT64, GST_MSECOND.
  intros Hl Hmin0 Hmin Hmax0 Hmax.
  unfold gst_rtp_jitter_buffer_query_latency. cbn [snd latency_ms set_peer_latency].
  unfold GST_MSECOND.
  rewrite (to_guint64_id (latency_ms priv))
    by (unfold is_guint64, G_MAXUINT64; lia).
  rewrite (to_guint64_id (latency_ms priv * 1000000))
    by (unfold is_guint64, G_MAXUINT64; lia).
  rewrite (to_guint64_id (min_latency + _))
    by (unfold is_guint64, G_MAXUINT64; lia).
  change (to_guint64 (-1)) with G_MAXUINT64. unfold G_MAXUINT64.
  destruct (Z.eqb_spec max_latency 18446744073709551615) as [E | N];
    cbn [negb]; [rewrite E; reflexivity |].
  specialize (Hmax N).
  rewrite (to_guint64_id (latency_ms priv * 1000000 * 1000000))
    by (unfold is_guint64, G_MAXUINT64; lia).
  rewrite to_guint64_id by (unfold is_guint64, G_MAXUINT64; lia).
  reflexivity.
Qed.

(** C5.  With a latency of 200 ms and a peer that answers min 0 and max
    one second, the reported minimum is 200 ms in nanoseconds and the
    reported maximum is one second plus 200 * 10^12: the latency in
    nanoseconds is multiplied by GST_MSECOND a second time. *)
Theorem query_latency_max_scaled_twice :
  snd (gst_rtp_jitter_buffer_query_latency (Examples.started 200 8000)
         (Some (Some (true, 0, 1000000000))))
  = Some (true, 200 * GST_MSECOND, 1000000000 + 200 * GST_MSECOND * GST_MSECOND)
  /\ 1000000000 + 200 * GST_MSECOND * GST_MSECOND <> 1000000000 + 200 * GST_MSECOND.
Proof. split; [vm_compute; reflexivity | vm_compute; discriminate]. Qed.

(** ** Flush stop *)

(** C6, as the claim has it: the extended timestamp is not 0 after
    flush-stop. *)
Lemma flush_stop_exttimestamp_not_zero :
  ~ (let priv := gst_rtp_jitter_buffer_flush_stop (Examples.started 100 8000) in
     srcresult priv = GST_FLOW_OK
     /\ segment priv = gst_segment_init GST_FORMAT_TIME
     /\ last_popped_seqnum priv = SEQNUM_NONE
     /\ next_seqnum priv = SEQNUM_NONE
     /\ clock_rate priv = -1
     /\ eos priv = false
     /\ exttimestamp priv = 0).
Proof.
  cbv zeta. intros (_ & _ & _ & _ & _ & _ & H).
  vm_compute in H. discriminate H.
Qed.

(** C6.  After flush-stop: srcresult is OK, the segment is the initial TIME
    segment, the last popped and the next expected seqnum are -1, the clock
    rate is -1, eos is FALSE, and the extended timestamp is -1, which in
    its guint64 is 2^64 - 1. *)
Theorem flush_stop_state (priv : GstRtpJitterBufferPrivate) :
  let priv' := gst_rtp_jitter_buffer_flush_stop priv in
  srcresult priv' = GST_FLOW_OK
  /\ segment priv' = gst_segment_init GST_FORMAT_TIME
  /\ last_popped_seqnum priv' = SEQNUM_NONE
  /\ next_seqnum priv' = SEQNUM_NONE
  /\ clock_rate priv' = -1
  /\ eos priv' = false
  /\ exttimestamp priv' = G_MAXUINT64
  /\ exttimestamp priv' = to_guint64 (-1).
Proof. cbv zeta. repeat split. Qed.

(** ** The store *)

Lemma insert_ordered_length (buf : GstBuffer) (queue : RTPJitterBuffer) :
  length (insert_ordered buf queue) = S (length queue).
Proof.
  induction queue as [| x rest IH]; cbn [insert_ordered length].
  - reflexivity.
  - destruct (0 <? _); cbn [length]; [reflexivity | now rewrite IH].
Qed.

Lemma insert_ordered_In (buf y : GstBuffer) (queue : RTPJitterBuffer) :
  In y (insert_ordered buf queue) <-> y = buf \/ In y queue.
Proof.
  induction queue as [| x rest IH]; cbn [insert_ordered].
  - cbn [In]. intuition auto.
  - destruct (0 <? _); cbn [In]; [intuition auto |].
    rewrite IH. intuition auto.
Qed.

Lemma has_seq_false_not_In (seqnum : Z) (queue : RTPJitterBuffer) :
  has_seq seqnum queue = false -> ~ In seqnum (map rtp_seq queue).
Proof.
  unfold has_seq. induction queue as [| x rest IH]; cbn [existsb map In].
  - intros _ [].
  - intros H. apply orb_false_elim in H. destruct H as [Hx Hrest].
    intros [E | Hin].
    + apply Z.eqb_neq in Hx. contradiction.
    + exact (IH Hrest Hin).
Qed.

(** At most one packet per seqnum stays resident: an insertion that is not
    refused keeps the seqnums of the store distinct. *)
Lemma insert_ordered_NoDup (buf : GstBuffer) (queue : RTPJitterBuffer) :
  NoDup (map rtp_seq queue) ->
  has_seq (rtp_seq buf) queue = false ->
  NoDup (map rtp_seq (insert_ordered buf queue)).
Proof.
  induction queue as [| x rest IH]; cbn [insert_ordered map]; intros Hnd Hno.
  - constructor; [intros [] | constructor].
  - destruct (0 <? _); cbn [map].
    + constructor; [| exact Hnd].
      exact (has_seq_false_not_In _ (x :: rest) Hno).
    + inversion Hnd as [| ? ? Hx Hrest]; subst.
      unfold has_seq in Hno. cbn [existsb] in Hno.
      apply orb_false_elim in Hno. destruct Hno as [Hne Hno].
      constructor; [| exact (IH Hrest Hno)].
      intros Hin. apply in_map_iff in Hin. destruct Hin as (y & Ey & Hy).
      apply insert_ordered_In in Hy. destruct Hy as [-> | Hy].
      * apply Z.eqb_neq in Hne. congruence.
      * apply Hx. apply in_map_iff. exists y. split; assumption.
Qed.

Lemma rtp_jitter_buffer_insert_NoDup (buf : GstBuffer) (queue : RTPJitterBuffer) :
  NoDup (map rtp_seq queue) ->
  NoDup (map rtp_seq (snd (rtp_jitter_buffer_insert queue buf))).
Proof.
  intros Hnd. unfold rtp_jitter_buffer_insert.
  destruct (has_seq (rtp_seq buf) queue) eqn:E; cbn [snd].
  - exact Hnd.
  - apply insert_ordered_NoDup; assumption.
Qed.

(** ** Drop on latency *)

(** [latency_ts] for a positive clock rate. *)
Lemma latency_ts_value (latency rate : Z) :
  is_guint32 latency -> 0 < rate <= G_MAXINT32 ->
  gst_util_uint64_scale_int latency rate 1000 = latency * rate / 1000.
Proof.
  unfold is_guint32, G_MAXUINT32, G_MAXINT32. intros Hl Hr.
  unfold gst_util_uint64_scale_int.
  destruct (Z.ltb_spec rate 0); [lia |]. cbn [orb Z.leb Z.compare].
  destruct (Z.ltb_spec G_MAXUINT64 (latency * rate / 1000)) as [Hbig | _];
    [| reflexivity].
  exfalso. unfold G_MAXUINT64 in Hbig.
  assert (latency * rate / 1000 <= latency * rate)
    by (apply Z.div_le_upper_bound; nia).
  nia.
Qed.

(** C10.  When the drop-on-latency block fires and the store has a head,
    exactly that head leaves the store and nothing else in the private
    structure changes: the last popped and the next expected seqnum and the
    two counters are as before, and so is the too-late test for every
    seqnum. *)
Theorem chain_drop_on_latency_frame (priv : GstRtpJitterBufferPrivate)
    (old_buf : GstBuffer) (rest : RTPJitterBuffer) :
  chain_queue_full priv = true ->
  rtp_jitter_buffer_pop (jbuf priv) = Some (old_buf, rest) ->
  let priv' := chain_drop_on_latency priv in
  jbuf priv = old_buf :: jbuf priv'
  /\ rtp_jitter_buffer_num_packets (jbuf priv')
     = rtp_jitter_buffer_num_packets (jbuf priv) - 1
  /\ priv' = set_jbuf priv rest
  /\ last_popped_seqnum priv' = last_popped_seqnum priv
  /\ next_seqnum priv' = next_seqnum priv
  /\ num_late priv' = num_late priv
  /\ num_duplicates priv' = num_duplicates priv
  /\ forall seqnum, chain_too_late priv' seqnum = chain_too_late priv seqnum.
Proof.
  intros Hfull Hpop. cbv zeta.
  rewrite chain_drop_on_latency_eq, Hfull.
  unfold rtp_jitter_buffer_pop in Hpop.
  destruct (jbuf priv) as [| x queue] eqn:Ej; [discriminate |].
  injection Hpop as -> ->.
  cbn [tl set_jbuf jbuf last_popped_seqnum next_seqnum num_late num_duplicates].
  unfold rtp_jitter_buffer_num_packets. cbn [length].
  repeat split; try reflexivity.
  lia.
Qed.

Lemma chain_drop_on_latency_frame_witness :
  let priv :=
    Examples.pushed (Examples.dropping 20 8000)
      [Examples.packet 1 1000; Examples.packet 2 1200] in
  chain_queue_full priv = true
  /\ jbuf (chain_drop_on_latency priv) = [Examples.packet 2 1200]
  /\ last_popped_seqnum (chain_drop_on_latency priv) = last_popped_seqnum priv.
Proof.
  cbv zeta. split; [reflexivity |].
  pose proof
    (chain_drop_on_latency_frame
       (Examples.pushed (Examples.dropping 20 8000)
          [Examples.packet 1 1000; Examples.packet 2 1200])
       (Examples.packet 1 1000) [Examples.packet 2 1200]
       eq_refl eq_refl) as H.
  cbv zeta in H. destruct H as (_ & _ & Hp & Hl & _).
  split; [rewrite Hp; reflexivity | exact Hl].
Defined.

(** A push that signals is one that got through the locked part and whose
    packet was inserted, after the drop-on-latency block, into the store. *)
Lemma chain_signal_inserted (request_pt_map : Z -> option GstCaps)
    (priv : GstRtpJitterBufferPrivate) (buffer : GstBuffer) :
  rtp_valid buffer = true ->
  clock_rate priv <> -1 ->
  chain_signal (gst_rtp_jitter_buffer_chain request_pt_map priv buffer) = true ->
  srcresult priv = GST_FLOW_OK
  /\ eos priv = false
  /\ chain_too_late priv (rtp_seq buffer) = false
  /\ has_seq (rtp_seq buffer) (jbuf (chain_drop_on_latency priv)) = false
  /\ chain_ret (gst_rtp_jitter_buffer_chain request_pt_map priv buffer) = GST_FLOW_OK
  /\ jbuf (chain_priv (gst_rtp_jitter_buffer_chain request_pt_map priv buffer))
     = insert_ordered buffer (jbuf (chain_drop_on_latency priv)).
Proof.
  intros Hvalid Hrate.
  assert (Hrate' := Hrate). apply Z.eqb_neq in Hrate'.
  destruct (srcresult priv) eqn:Hres;
    try (unfold gst_rtp_jitter_buffer_chain;
         rewrite Hvalid; cbn [negb]; rewrite Hrate'; cbv zeta;
         rewrite Hrate', Hres; cbn; discriminate).
  destruct (eos priv) eqn:Heos;
    [unfold gst_rtp_jitter_buffer_chain;
     rewrite Hvalid; cbn [negb]; rewrite Hrate'; cbv zeta;
     rewrite Hrate', Hres, Heos; cbn; discriminate |].
  rewrite chain_locked_part by assumption.
  destruct (chain_too_late priv (rtp_seq buffer)); [cbn; discriminate |].
  unfold rtp_jitter_buffer_insert.
  destruct (has_seq (rtp_seq buffer) (jbuf (chain_drop_on_latency priv)));
    [cbn; discriminate |].
  intros _.
  unfold chain_unschedule_waiting.
  cbn [set_jbuf clock_id waiting_seqnum].
  destruct (clock_id (chain_drop_on_latency priv)) as [id |];
    [destruct (rtp_seq buffer <? waiting_seqnum (chain_drop_on_latency priv)) |];
    cbn; repeat split; reflexivity.
Qed.

(** C4, as the claim has it: with a latency of 20 ms at 8000 Hz
    (160 ticks) and four packets 40 ticks apart in the store, the push of a
    fifth one leaves a store that spans 160 ticks. *)
Lemma chain_drop_on_latency_span_not_below :
  let priv :=
    Examples.pushed (Examples.dropping 20 8000)
      [Examples.packet 1 1000; Examples.packet 2 1040;
       Examples.packet 3 1080; Examples.packet 4 1120] in
  let r :=
    gst_rtp_jitter_buffer_chain Examples.no_pt_map priv (Examples.packet 5 1160) in
  drop_on_latency priv = true /\ 0 < latency_ms priv /\ clock_rate priv = 8000
  /\ chain_ret r = GST_FLOW_OK
  /\ In (Examples.packet 5 1160) (jbuf (chain_priv r))
  /\ ~ (rtp_jitter_buffer_get_ts_diff (jbuf (chain_priv r))
        < latency_ms priv * clock_rate priv / 1000).
Proof.
  cbv zeta.
  do 4 (split; [vm_compute; reflexivity |]).
  split.
  - vm_compute. auto 10.
  - vm_compute. discriminate.
Qed.

(** C4.  With drop-on-latency set, a latency and a positive clock rate, a
    push that enqueues its packet looks at the span of the store as it is
    before the insertion: at or above latency_ms * clock_rate / 1000 the
    head is dropped and the packet inserted into what is left, so that a
    non-empty store does not grow; below it the packet is inserted and
    nothing is dropped. *)
Theorem chain_drop_on_latency_before_insert
    (request_pt_map : Z -> option GstCaps)
    (priv : GstRtpJitterBufferPrivate) (buffer : GstBuffer) :
  rtp_valid buffer = true ->
  drop_on_latency priv = true ->
  0 < latency_ms priv <= G_MAXUINT32 ->
  0 < clock_rate priv <= G_MAXINT32 ->
  chain_signal (gst_rtp_jitter_buffer_chain request_pt_map priv buffer) = true ->
  let queue :=
    jbuf (chain_priv (gst_rtp_jitter_buffer_chain request_pt_map priv buffer)) in
  (latency_ms priv * clock_rate priv / 1000
     <= rtp_jitter_buffer_get_ts_diff (jbuf priv) ->
   queue = insert_ordered buffer (tl (jbuf priv))
   /\ rtp_jitter_buffer_num_packets queue
      = Z.max 1 (rtp_jitter_buffer_num_packets (jbuf priv)))
  /\ (rtp_jitter_buffer_get_ts_diff (jbuf priv)
        < latency_ms priv * clock_rate priv / 1000 ->
      queue = insert_ordered buffer (jbuf priv)
      /\ rtp_jitter_buffer_num_packets queue
         = rtp_jitter_buffer_num_packets (jbuf priv) + 1).
Proof.
  intros Hvalid Hdrop Hlat Hrate Hsig. cbv zeta.
  assert (Hres : clock_rate priv <> -1) by lia.
  destruct (chain_signal_inserted _ _ _ Hvalid Hres Hsig)
    as (_ & _ & _ & _ & _ & Hq).
  rewrite Hq, chain_drop_on_latency_eq.
  unfold chain_queue_full. rewrite Hdrop.
  destruct (Z.eqb_spec (latency_ms priv) 0) as [E | _]; [lia |].
  cbn [negb andb].
  rewrite latency_ts_value by (unfold is_guint32; lia).
  unfold rtp_jitter_buffer_num_packets.
  split; intros Hspan.
  - destruct (Z.leb_spec (latency_ms priv * clock_rate priv / 1000)
                (rtp_jitter_buffer_get_ts_diff (jbuf priv))); [| lia].
    cbn [set_jbuf jbuf]. split; [reflexivity |].
    rewrite insert_ordered_length.
    destruct (jbuf priv); cbn [tl length]; lia.
  - destruct (Z.leb_spec (latency_ms priv * clock_rate priv / 1000)
                (rtp_jitter_buffer_get_ts_diff (jbuf priv))); [lia |].
    split; [reflexivity |].
    rewrite insert_ordered_length. lia.
Qed.

Lemma chain_drop_on_latency_before_insert_witness :
  let priv :=
    Examples.pushed (Examples.dropping 20 8000)
      [Examples.packet 1 1000; Examples.packet 2 1200] in
  let r :=
    gst_rtp_jitter_buffer_chain Examples.no_pt_map priv (Examples.packet 3 1240) in
  chain_signal r = true
  /\ 20 * 8000 / 1000 <= rtp_jitter_buffer_get_ts_diff (jbuf priv)
  /\ jbuf (chain_priv r)
     = insert_ordered (Examples.packet 3 1240) [Examples.packet 2 1200].
Proof.
  cbv zeta. split; [vm_compute; reflexivity |].
  split; [vm_compute; discriminate |].
  refine (proj1 (proj1
    (chain_drop_on_latency_before_insert Examples.no_pt_map
       (Examples.pushed (Examples.dropping 20 8000)
          [Examples.packet 1 1000; Examples.packet 2 1200])
       (Examples.packet 3 1240) _ _ _ _ _) _)).
  - vm_compute. reflexivity.
  - vm_compute. reflexivity.
  - vm_compute. split; [reflexivity | discriminate].
  - vm_compute. split; [reflexivity | discriminate].
  - vm_compute. reflexivity.
  - vm_compute. discriminate.
Defined.

(** ** Duplicates *)


(** The push of a packet whose seqnum is resident, which passes the
    too-late test and for which the drop-on-latency block does not fire,
    returns OK without signalling or unscheduling, adds one to
    num_duplicates and leaves the store, and every other field, as it
    was. *)
Lemma chain_duplicate_without_drop
    (request_pt_map : Z -> option GstCaps)
    (priv : GstRtpJitterBufferPrivate) (buffer : GstBuffer) :
  rtp_valid buffer = true ->
  clock_rate priv <> -1 ->
  srcresult priv = GST_FLOW_OK ->
  eos priv = false ->
  chain_too_late priv (rtp_seq buffer) = false ->
  has_seq (rtp_seq buffer) (jbuf priv) = true ->
  chain_queue_full priv = false ->
  0 <= num_duplicates priv < G_MAXUINT64 ->
  let r := gst_rtp_jitter_buffer_chain request_pt_map priv buffer in
  chain_ret r = GST_FLOW_OK
  /\ num_duplicates (chain_priv r) = num_duplicates priv + 1
  /\ jbuf (chain_priv r) = jbuf priv
  /\ chain_priv r = set_num_duplicates priv (num_duplicates priv + 1)
  /\ chain_signal r = false
  /\ chain_unschedule r = false.
Proof.
  intros Hvalid Hrate Hres Heos Hlate Hdup Hfull Hcount. cbv zeta.
  rewrite chain_locked_part by assumption.
  rewrite Hlate, chain_drop_on_latency_eq, Hfull.
  unfold rtp_jitter_buffer_insert. rewrite Hdup.
  cbn [chain_ret chain_priv chain_signal chain_unschedule].
  rewrite to_guint64_id by (unfold is_guint64; lia).
  repeat split.
Qed.

Lemma chain_duplicate_without_drop_example :
  let priv :=
    Examples.pushed (Examples.started 100 8000) [Examples.packet 400 8000] in
  let r :=
    gst_rtp_jitter_buffer_chain Examples.no_pt_map priv (Examples.packet 400 8000) in
  has_seq 400 (jbuf priv) = true
  /\ chain_ret r = GST_FLOW_OK
  /\ num_duplicates (chain_priv r) = num_duplicates priv + 1
  /\ jbuf (chain_priv r) = jbuf priv.
Proof.
  cbv zeta. split; [vm_compute; reflexivity |].
  assert (H :
    let r :=
      gst_rtp_jitter_buffer_chain Examples.no_pt_map
        (Examples.pushed (Examples.started 100 8000) [Examples.packet 400 8000])
        (Examples.packet 400 8000) in
    chain_ret r = GST_FLOW_OK
    /\ num_duplicates (chain_priv r)
       = num_duplicates
           (Examples.pushed (Examples.started 100 8000)
              [Examples.packet 400 8000]) + 1
    /\ jbuf (chain_priv r)
       = jbuf (Examples.pushed (Examples.started 100 8000)
                 [Examples.packet 400 8000])
    /\ chain_priv r
       = set_num_duplicates
           (Examples.pushed (Examples.started 100 8000)
              [Examples.packet 400 8000])
           (num_duplicates
              (Examples.pushed (Examples.started 100 8000)
                 [Examples.packet 400 8000]) + 1)
    /\ chain_signal r = false
    /\ chain_unschedule r = false).
  { apply chain_duplicate_without_drop.
    - vm_compute. reflexivity.
    - vm_compute. discriminate.
    - vm_compute. reflexivity.
    - vm_compute. reflexivity.
    - vm_compute. reflexivity.
    - vm_compute. reflexivity.
    - vm_compute. reflexivity.
    - vm_compute. split; [discriminate | reflexivity]. }
  cbv zeta in H. destruct H as (H1 & H2 & H3 & _).
  split; [exact H1 | split; [exact H2 | exact H3]].
Defined.

(** When the block does fire, the head is dropped first; a duplicate of a
    packet further down is then counted and dropped, the store being
    shorter by its head. *)
Lemma chain_duplicate_after_drop
    (request_pt_map : Z -> option GstCaps)
    (priv : GstRtpJitterBufferPrivate) (buffer old_buf : GstBuffer)
    (rest : RTPJitterBuffer) :
  rtp_valid buffer = true ->
  clock_rate priv <> -1 ->
  srcresult priv = GST_FLOW_OK ->
  eos priv = false ->
  chain_too_late priv (rtp_seq buffer) = false ->
  jbuf priv = old_buf :: rest ->
  has_seq (rtp_seq buffer) rest = true ->
  chain_queue_full priv = true ->
  chain_ret (gst_rtp_jitter_buffer_chain request_pt_map priv buffer) = GST_FLOW_OK
  /\ jbuf (chain_priv (gst_rtp_jitter_buffer_chain request_pt_map priv buffer))
     = rest
  /\ num_duplicates
       (chain_priv (gst_rtp_jitter_buffer_chain request_pt_map priv buffer))
     = to_guint64 (num_duplicates priv + 1).
Proof.
  intros Hvalid Hrate Hres Heos Hlate Hq Hdup Hfull.
  rewrite chain_locked_part by assumption.
  rewrite Hlate, chain_drop_on_latency_eq, Hfull, Hq.
  cbn [tl set_jbuf jbuf num_duplicates].
  unfold rtp_jitter_buffer_insert. rewrite Hdup.
  repeat split.
Qed.



(** ** The timestamp offset *)

Lemma to_guint64_gint64 (z : Z) : to_guint64 (to_gint64 z) = to_guint64 z.
Proof.
  unfold to_guint64, to_gint64.
  rewrite <- (Z.add_opp_r _ (2 ^ 63)).
  rewrite <- Zplus_mod_idemp_l, Z.mod_mod by lia.
  rewrite Zplus_mod_idemp_l.
  f_equal; lia.
Qed.

Lemma to_gint32_guint64 (z : Z) : to_gint32 (to_guint64 z) = to_gint32 z.
Proof.
  unfold to_gint32, to_guint64.
  f_equal.
  pose proof (Z.div_mod z (2 ^ 64) ltac:(lia)) as Hz.
  replace (z mod 2 ^ 64 + 2 ^ 31)
    with (z + 2 ^ 31 + (- (z / 2 ^ 64) * 2 ^ 32) * 2 ^ 32) by lia.
  apply Z_mod_plus_full.
Qed.

(** The offset in RTP units: the offset times the clock rate over
    GST_SECOND, rounded toward zero, as a gint. *)
Lemma ts_offset_rtp_of_quot (priv : GstRtpJitterBufferPrivate) :
  is_gint64 (ts_offset priv) ->
  0 < clock_rate priv ->
  Z.abs (ts_offset priv) * clock_rate priv / GST_SECOND <= G_MAXUINT64 ->
  ts_offset_rtp_of priv
  = to_gint32 (Z.quot (ts_offset priv * clock_rate priv) GST_SECOND).
Proof.
  unfold is_gint64, GST_SECOND. intros Hoff Hrate Hfit.
  unfold ts_offset_rtp_of, gst_util_uint64_scale_int, GST_SECOND.
  destruct (Z.ltb_spec (clock_rate priv) 0); [lia |]. cbn [orb Z.leb Z.compare].
  destruct (Z.ltb_spec 0 (ts_offset priv)) as [Hpos | Hnpos].
  - rewrite to_guint64_id by (unfold is_guint64, G_MAXUINT64; lia).
    rewrite Z.abs_eq in Hfit by lia.
    destruct (Z.ltb_spec G_MAXUINT64
                (ts_offset priv * clock_rate priv / 1000000000)); [lia |].
    rewrite Z.quot_div_nonneg by nia. reflexivity.
  - destruct (Z.ltb_spec (ts_offset priv) 0) as [Hneg | Hzero].
    + rewrite to_guint64_gint64.
      rewrite (to_guint64_id (- ts_offset priv))
        by (unfold is_guint64, G_MAXUINT64; lia).
      rewrite Z.abs_neq in Hfit by lia.
      destruct (Z.ltb_spec G_MAXUINT64
                  (- ts_offset priv * clock_rate priv / 1000000000)); [lia |].
      rewrite to_gint32_guint64.
      replace (ts_offset priv * clock_rate priv)
        with (- (- ts_offset priv * clock_rate priv)) by lia.
      rewrite Z.quot_opp_l by lia.
      rewrite Z.quot_div_nonneg by nia. reflexivity.
    + replace (ts_offset priv) with 0 by lia. reflexivity.
Qed.

(** C7.  Packet 100 is released with an offset of half a second and is
    marked DISCONT.  The offset is then set back to 0: packet 101 is
    released without DISCONT and the recorded offset stays at half a
    second.  The offset is set to half a second again: packet 102 is
    released without DISCONT as well.  The offset has changed before each
    of the two releases, and the timestamps go from + 4000 to + 0 to
    + 4000. *)
Theorem loop_push_buffer_offset_change_unmarked :
  let first :=
    loop_push_buffer
      (gst_rtp_jitter_buffer_set_ts_offset (Examples.started 100 8000) 500000000)
      (Examples.packet 100 8000) 100 in
  let reset := gst_rtp_jitter_buffer_set_ts_offset (fst first) 0 in
  let second := loop_push_buffer reset (Examples.packet 101 8160) 101 in
  let again := gst_rtp_jitter_buffer_set_ts_offset (fst second) 500000000 in
  let third := loop_push_buffer again (Examples.packet 102 8320) 102 in
  (flag_discont (snd first) = true /\ rtp_timestamp (snd first) = 12000)
  /\ (ts_offset reset <> ts_offset (fst first)
      /\ flag_discont (snd second) = false
      /\ rtp_timestamp (snd second) = 8160
      /\ prev_ts_offset (fst second) = 500000000)
  /\ (ts_offset again <> ts_offset (fst second)
      /\ flag_discont (snd third) = false
      /\ rtp_timestamp (snd third) = 12320).
Proof.
  cbv zeta.
  repeat apply conj; vm_compute; first [reflexivity | discriminate].
Qed.

(** X28.  At a release with a positive clock rate and an offset whose
    conversion fits, the RTP timestamp becomes the old one plus
    ts_offset * clock_rate / GST_SECOND rounded toward zero, modulo 2^32.
    When the converted offset, as a gint, is not 0 and the offset differs
    from the one recorded last, the buffer is marked DISCONT and the offset
    recorded.  When the converted offset is 0 the offset step marks
    nothing and records nothing. *)
Lemma loop_push_buffer_ts_offset (priv : GstRtpJitterBufferPrivate)
    (outbuf : GstBuffer) (seqnum : Z) :
  is_gint64 (ts_offset priv) ->
  0 < clock_rate priv ->
  Z.abs (ts_offset priv) * clock_rate priv / GST_SECOND <= G_MAXUINT64 ->
  is_guint32 (rtp_timestamp outbuf) ->
  let converted := Z.quot (ts_offset priv * clock_rate priv) GST_SECOND in
  let priv' := fst (loop_push_buffer priv outbuf seqnum) in
  let outbuf' := snd (loop_push_buffer priv outbuf seqnum) in
  rtp_timestamp outbuf' = to_guint32 (rtp_timestamp outbuf + converted)
  /\ (to_gint32 converted <> 0 ->
      ts_offset priv <> prev_ts_offset priv ->
      flag_discont outbuf' = true /\ prev_ts_offset priv' = ts_offset priv)
  /\ (to_gint32 converted = 0 ->
      flag_discont outbuf' = flag_discont outbuf || loop_gap priv seqnum
      /\ prev_ts_offset priv' = prev_ts_offset priv).
Proof.
  intros Hoff Hrate Hfit Hts. cbv zeta.
  pose proof (ts_offset_rtp_of_quot priv Hoff Hrate Hfit) as Hconv.
  unfold loop_push_buffer, loop_gap.
  destruct (negb (next_seqnum priv =? SEQNUM_NONE)
            && negb (next_seqnum priv =? seqnum));
    unfold ts_offset_rtp_of in *;
    cbn [set_num_late ts_offset clock_rate prev_ts_offset];
    rewrite Hconv;
    (destruct (Z.eqb_spec
                 (to_gint32 (ts_offset priv * clock_rate priv ÷ GST_SECOND)) 0)
       as [Ez | Enz]; cbn [negb];
     [ cbn [fst snd set_last_popped_seqnum set_next_seqnum prev_ts_offset
            rtp_timestamp flag_discont set_flag_discont];
       split;
       [ rewrite <- to_guint32_add_gint32, Ez, Z.add_0_r, to_guint32_id
           by assumption; reflexivity
       | split; [intros C; contradiction
                | intros _; rewrite ?orb_true_r, ?orb_false_r; split; reflexivity] ]
     | destruct (Z.eqb_spec (ts_offset priv) (prev_ts_offset priv)) as [Es | Ens];
       cbn [negb fst snd set_last_popped_seqnum set_next_seqnum prev_ts_offset
            set_prev_ts_offset rtp_timestamp flag_discont set_flag_discont
            gst_rtp_buffer_set_timestamp];
       (split;
        [ apply to_guint32_add_gint32
        | split; [intros _ C; try contradiction; split; reflexivity
                 | intros C; contradiction] ]) ]).
Qed.

Lemma loop_push_buffer_ts_offset_negative :
  let priv :=
    gst_rtp_jitter_buffer_set_ts_offset (Examples.started 100 8000) (-500000000) in
  let outbuf' := snd (loop_push_buffer priv (Examples.packet 100 8000) 100) in
  rtp_timestamp outbuf' = to_guint32 (8000 + Z.quot (-500000000 * 8000) GST_SECOND).
Proof.
  cbv zeta.
  refine (proj1
    (loop_push_buffer_ts_offset
       (gst_rtp_jitter_buffer_set_ts_offset (Examples.started 100 8000)
          (-500000000))
       (Examples.packet 100 8000) 100 _ _ _ _)).
  - vm_compute. split; [discriminate | reflexivity].
  - vm_compute. reflexivity.
  - vm_compute. discriminate.
  - vm_compute. split; discriminate.
Defined.

(** ** The task without a clock *)

Lemma loop_push_buffer_seqnums (priv : GstRtpJitterBufferPrivate)
    (outbuf : GstBuffer) (seqnum : Z) :
  let priv' := fst (loop_push_buffer priv outbuf seqnum) in
  last_popped_seqnum priv' = seqnum
  /\ next_seqnum priv' = (seqnum + 1) mod 2 ^ 16
  /\ clock_id priv' = clock_id priv
  /\ waiting_seqnum priv' = waiting_seqnum priv
  /\ jbuf priv' = jbuf priv.
Proof.
  cbv zeta. unfold loop_push_buffer.
  destruct (negb (next_seqnum priv =? SEQNUM_NONE)
            && negb (next_seqnum priv =? seqnum));
    match goal with
    | |- context [ts_offset_rtp_of ?p =? 0] =>
        destruct (ts_offset_rtp_of p =? 0); cbn [negb];
        [| destruct (ts_offset p =? prev_ts_offset p); cbn [negb]]
    end;
    cbn; rewrite land_65535; repeat split.
Qed.

(** Without a clock the handling of a popped buffer that is not the
    expected one is the code at the label push_buffer, applied after the
    extended timestamp and the clock base are stored. *)
Lemma loop_sync_no_clock_eq
    (gst_rtp_buffer_ext_timestamp : Z -> Z -> Z)
    (gst_segment_to_running_time : GstSegment -> GstFormat -> Z -> Z)
    (clock_id_wait : GstRtpJitterBufferPrivate -> GstRtpJitterBufferPrivate)
    (element : GstElement)
    (priv : GstRtpJitterBufferPrivate) (outbuf : GstBuffer) :
  element_has_clock element = false ->
  next_seqnum priv = SEQNUM_NONE \/ next_seqnum priv <> rtp_seq outbuf ->
  let ext := gst_rtp_buffer_ext_timestamp (exttimestamp priv) (rtp_timestamp outbuf) in
  let synced :=
    fst (loop_running_time gst_segment_to_running_time
           (set_exttimestamp priv ext) ext) in
  loop_sync gst_rtp_buffer_ext_timestamp gst_segment_to_running_time
    clock_id_wait element priv outbuf
  = ([], SYNC_DONE (LOOP_PUSH (fst (loop_push_buffer synced outbuf (rtp_seq outbuf)))
                      (snd (loop_push_buffer synced outbuf (rtp_seq outbuf))))).
Proof.
  intros Hclock Hseq. cbv zeta.
  unfold loop_sync. cbn [next_seqnum set_exttimestamp].
  assert (Hcond : (next_seqnum priv =? SEQNUM_NONE)
                  || negb (next_seqnum priv =? rtp_seq outbuf) = true).
  { destruct Hseq as [E | N].
    - rewrite E, Z.eqb_refl. reflexivity.
    - apply Z.eqb_neq in N. rewrite N. apply orb_true_r. }
  rewrite Hcond, Hclock. cbn [negb].
  destruct (loop_running_time _ _ _) as [p t]. cbn [fst].
  destruct (loop_push_buffer p outbuf (rtp_seq outbuf)) as [p' b'].
  reflexivity.
Qed.

Lemma loop_running_time_frame
    (gst_segment_to_running_time : GstSegment -> GstFormat -> Z -> Z)
    (priv : GstRtpJitterBufferPrivate) (ext : Z) :
  let priv' := fst (loop_running_time gst_segment_to_running_time priv ext) in
  clock_id priv' = clock_id priv
  /\ waiting_seqnum priv' = waiting_seqnum priv
  /\ jbuf priv' = jbuf priv
  /\ next_seqnum priv' = next_seqnum priv.
Proof.
  cbv zeta. unfold loop_running_time.
  destruct (clock_base priv =? -1); cbn; repeat split.
Qed.



(** The whole round: unblocked, not flushing, with a packet in the store
    that is not the expected one and no clock, the task pops the head and
    pushes it without waiting. *)
Lemma loop_without_clock_pushes
    (gst_rtp_buffer_ext_timestamp : Z -> Z -> Z)
    (gst_segment_to_running_time : GstSegment -> GstFormat -> Z -> Z)
    (jbuf_wait clock_id_wait : GstRtpJitterBufferPrivate -> GstRtpJitterBufferPrivate)
    (element : GstElement) (rounds : nat)
    (priv : GstRtpJitterBufferPrivate) (outbuf : GstBuffer)
    (rest : RTPJitterBuffer) :
  element_has_clock element = false ->
  srcresult priv = GST_FLOW_OK ->
  blocked priv = false ->
  jbuf priv = outbuf :: rest ->
  next_seqnum priv = SEQNUM_NONE \/ next_seqnum priv <> rtp_seq outbuf ->
  exists priv' outbuf',
    gst_rtp_jitter_buffer_loop gst_rtp_buffer_ext_timestamp
      gst_segment_to_running_time jbuf_wait clock_id_wait element
      (S rounds) priv
    = ([], LOOP_PUSH priv' outbuf')
    /\ rtp_seq outbuf' = rtp_seq outbuf
    /\ jbuf priv' = rest
    /\ clock_id priv' = clock_id priv
    /\ last_popped_seqnum priv' = rtp_seq outbuf
    /\ next_seqnum priv' = (rtp_seq outbuf + 1) mod 2 ^ 16.
Proof.
  intros Hclock Hres Hblocked Hq Hseq.
  pose proof
    (loop_sync_no_clock_eq gst_rtp_buffer_ext_timestamp
       gst_segment_to_running_time clock_id_wait element
       (set_jbuf priv rest) outbuf Hclock Hseq) as Hrun.
  cbv zeta in Hrun.
  eexists. eexists. split.
  - unfold gst_rtp_jitter_buffer_loop. rewrite Hres. cbn [flow_is_ok negb].
    cbn [loop_again]. rewrite Hblocked, Hq.
    unfold rtp_jitter_buffer_num_packets.
    cbn [negb andb length rtp_jitter_buffer_pop].
    replace (0 <? Z.of_nat (S (length rest))) with true
      by (symmetry; apply Z.ltb_lt; lia).
    rewrite Hrun. reflexivity.
  - split.
    + unfold loop_push_buffer.
      repeat match goal with
             | |- context [if ?c then _ else _] => destruct c
             end; reflexivity.
    + match goal with
      | |- context [loop_push_buffer ?p ?b ?s] =>
          destruct (loop_push_buffer_seqnums p b s) as (Hl & Hn & Hc & _ & Hj);
          cbv zeta in Hl, Hn, Hc, Hj
      end.
      rewrite Hl, Hn, Hc, Hj.
      match goal with
      | |- context [loop_running_time ?g ?p ?e] =>
          destruct (loop_running_time_frame g p e) as (Hc' & _ & Hj' & _);
          cbv zeta in Hc', Hj'
      end.
      rewrite Hc', Hj'. cbn. repeat split.
Qed.

(** * Further properties of the element *)

(** ** Sequence number comparison *)

(** X1.  Swapping the arguments of priv_compare_rtp_seq_lt negates the
    result, and the result is 0 exactly for equal arguments. *)
Theorem priv_compare_rtp_seq_lt_antisym (a b : Z) :
  priv_compare_rtp_seq_lt b a = - priv_compare_rtp_seq_lt a b
  /\ (priv_compare_rtp_seq_lt a b = 0 <-> a = b).
Proof.
  unfold priv_compare_rtp_seq_lt.
  replace (Z.abs (a - b)) with (Z.abs (b - a)) by lia.
  destruct (Z.ltb_spec (2 ^ 15) (Z.abs (b - a))); lia.
Qed.

(** For 16-bit arguments the result is negative exactly when b lies less
    than half the range behind a, the wrap counted in; at exactly half
    the range the plain order of the two numbers decides. *)
Lemma priv_compare_rtp_seq_lt_neg_iff (a b : Z) :
  is_guint16 a -> is_guint16 b ->
  (priv_compare_rtp_seq_lt a b < 0
   <-> (0 < (a - b) mod 2 ^ 16 < 2 ^ 15 \/ a - b = 2 ^ 15)).
Proof.
  unfold is_guint16, G_MAXUINT16, priv_compare_rtp_seq_lt. intros Ha Hb.
  destruct (Z.lt_ge_cases a b) as [Hlt | Hge].
  - assert (Hm : (a - b) mod 2 ^ 16 = a - b + 2 ^ 16)
      by (symmetry; apply Zmod_unique with (q := -1); lia).
    rewrite Hm.
    destruct (Z.ltb_spec (2 ^ 15) (Z.abs (b - a))); lia.
  - assert (Hm : (a - b) mod 2 ^ 16 = a - b) by (apply Z.mod_small; lia).
    rewrite Hm.
    destruct (Z.ltb_spec (2 ^ 15) (Z.abs (b - a))); lia.
Qed.

(** X2.  For 16-bit sequence numbers, priv_compare_rtp_seq_lt (a, b) is
    negative exactly when b lies less than half the range behind a, the
    wrap at 65535 counted in, or exactly 32768 below a. *)
Theorem priv_compare_rtp_seq_lt_negative (a b : Z) :
  is_guint16 a -> is_guint16 b ->
  (priv_compare_rtp_seq_lt a b < 0
   <-> (0 < (a - b) mod 2 ^ 16 < 2 ^ 15 \/ a - b = 2 ^ 15)).
Proof. exact (priv_compare_rtp_seq_lt_neg_iff a b). Qed.

Lemma priv_compare_rtp_seq_lt_negative_witness :
  priv_compare_rtp_seq_lt 2 65534 < 0.
Proof.
  apply (priv_compare_rtp_seq_lt_negative 2 65534).
  - unfold is_guint16, G_MAXUINT16. lia.
  - unfold is_guint16, G_MAXUINT16. lia.
  - left. vm_compute. split; reflexivity.
Defined.

(** ** Caps *)

(** Parsing caps touches the clock rate, the clock base and the expected
    seqnum only. *)
Lemma parse_caps_frame (priv : GstRtpJitterBufferPrivate) (caps : GstCaps) :
  let priv' := snd (gst_jitter_buffer_sink_parse_caps priv caps) in
  jbuf priv' = jbuf priv
  /\ latency_ms priv' = latency_ms priv
  /\ drop_on_latency priv' = drop_on_latency priv
  /\ ts_offset priv' = ts_offset priv
  /\ last_popped_seqnum priv' = last_popped_seqnum priv
  /\ eos priv' = eos priv
  /\ exttimestamp priv' = exttimestamp priv
  /\ prev_ts_offset priv' = prev_ts_offset priv
  /\ srcresult priv' = srcresult priv
  /\ blocked priv' = blocked priv
  /\ segment priv' = segment priv
  /\ clock_id priv' = clock_id priv
  /\ waiting_seqnum priv' = waiting_seqnum priv
  /\ peer_latency priv' = peer_latency priv
  /\ num_late priv' = num_late priv
  /\ num_duplicates priv' = num_duplicates priv.
Proof.
  cbv zeta. unfold gst_jitter_buffer_sink_parse_caps.
  destruct (caps_clock_rate caps) as [rate |]; [| cbn; repeat split].
  cbn [clock_rate set_clock_rate].
  destruct (rate <=? 0); [cbn; repeat split |].
  destruct (caps_clock_base caps), (caps_seqnum_base caps); cbn; repeat split.
Qed.

(** Caps that are accepted leave a clock rate above 0. *)
Lemma parse_caps_rate_positive (priv : GstRtpJitterBufferPrivate) (caps : GstCaps) :
  fst (gst_jitter_buffer_sink_parse_caps priv caps) = true ->
  0 < clock_rate (snd (gst_jitter_buffer_sink_parse_caps priv caps)).
Proof.
  unfold gst_jitter_buffer_sink_parse_caps.
  destruct (caps_clock_rate caps) as [rate |]; [| discriminate].
  cbn [clock_rate set_clock_rate].
  destruct (Z.leb_spec rate 0); [discriminate |].
  intros _.
  destruct (caps_clock_base caps), (caps_seqnum_base caps); cbn; assumption.
Qed.

(** X3.  gst_jitter_buffer_sink_parse_caps returns TRUE exactly when the
    caps carry a clock-rate above 0.  It then stores that rate, the
    clock-base of the caps or -1, and the seqnum-base of the caps or -1;
    caps without a clock-rate leave the private structure as it was. *)
Theorem parse_caps_accepts (priv : GstRtpJitterBufferPrivate) (caps : GstCaps) :
  let r := gst_jitter_buffer_sink_parse_caps priv caps in
  (fst r = true <-> exists rate, caps_clock_rate caps = Some rate /\ 0 < rate)
  /\ (fst r = true ->
      0 < clock_rate (snd r)
      /\ caps_clock_rate caps = Some (clock_rate (snd r))
      /\ clock_base (snd r)
         = match caps_clock_base caps with Some v => v | None => -1 end
      /\ next_seqnum (snd r)
         = match caps_seqnum_base caps with Some v => v | None => SEQNUM_NONE end)
  /\ (caps_clock_rate caps = None -> r = (false, priv)).
Proof.
  cbv zeta. unfold gst_jitter_buffer_sink_parse_caps.
  destruct (caps_clock_rate caps) as [rate |].
  - cbn [clock_rate set_clock_rate].
    destruct (Z.leb_spec rate 0) as [Hle | Hgt].
    + cbn [fst]. split; [| split; [discriminate | discriminate]].
      split; [discriminate |].
      intros (x & E & Hx). injection E as <-. lia.
    + split; [| split; [| discriminate]].
      * cbn [fst]. split; [| reflexivity].
        intros _. exists rate. split; [reflexivity | assumption].
      * intros _.
        destruct (caps_clock_base caps), (caps_seqnum_base caps); cbn;
          repeat split; assumption.
  - cbn [fst]. split; [| split; [discriminate | reflexivity]].
    split; [discriminate |]. intros (x & E & _). discriminate E.
Qed.

Lemma parse_caps_accepts_witness :
  let r :=
    gst_jitter_buffer_sink_parse_caps (Examples.started 100 (-1))
      (mkCaps (Some 8000) None (Some 17)) in
  fst r = true /\ clock_rate (snd r) = 8000 /\ clock_base (snd r) = -1
  /\ next_seqnum (snd r) = 17.
Proof.
  cbv zeta.
  destruct (parse_caps_accepts (Examples.started 100 (-1))
              (mkCaps (Some 8000) None (Some 17))) as (Hiff & Hok & _).
  cbv zeta in Hiff, Hok.
  assert (Ht : fst (gst_jitter_buffer_sink_parse_caps (Examples.started 100 (-1))
                      (mkCaps (Some 8000) None (Some 17))) = true).
  { apply Hiff. exists 8000. split; [reflexivity | lia]. }
  destruct (Hok Ht) as (_ & _ & Hb & Hn).
  split; [exact Ht |].
  split; [reflexivity |].
  split; [exact Hb | exact Hn].
Defined.

(** Caps whose clock-rate is 0 or negative are refused, and the refused
    rate is nevertheless in the private structure. *)
Lemma parse_caps_refused_rate (priv : GstRtpJitterBufferPrivate)
    (caps : GstCaps) (rate : Z) :
  caps_clock_rate caps = Some rate -> rate <= 0 ->
  gst_jitter_buffer_sink_parse_caps priv caps = (false, set_clock_rate priv rate).
Proof.
  intros E Hle. unfold gst_jitter_buffer_sink_parse_caps. rewrite E.
  cbn [clock_rate set_clock_rate].
  destruct (Z.leb_spec rate 0); [reflexivity | lia].
Qed.

(** ** The chain function, all paths *)

Lemma get_clock_rate_frame (request_pt_map : Z -> option GstCaps)
    (priv : GstRtpJitterBufferPrivate) (pt : Z) :
  let priv' := snd (gst_rtp_jitter_buffer_get_clock_rate request_pt_map priv pt) in
  jbuf priv' = jbuf priv
  /\ latency_ms priv' = latency_ms priv
  /\ drop_on_latency priv' = drop_on_latency priv
  /\ ts_offset priv' = ts_offset priv
  /\ last_popped_seqnum priv' = last_popped_seqnum priv
  /\ eos priv' = eos priv
  /\ exttimestamp priv' = exttimestamp priv
  /\ prev_ts_offset priv' = prev_ts_offset priv
  /\ srcresult priv' = srcresult priv
  /\ blocked priv' = blocked priv
  /\ segment priv' = segment priv
  /\ clock_id priv' = clock_id priv
  /\ waiting_seqnum priv' = waiting_seqnum priv
  /\ peer_latency priv' = peer_latency priv
  /\ num_late priv' = num_late priv
  /\ num_duplicates priv' = num_duplicates priv.
Proof.
  cbv zeta. unfold gst_rtp_jitter_buffer_get_clock_rate.
  destruct (request_pt_map pt) as [caps |].
  - apply parse_caps_frame.
  - cbn. repeat split.
Qed.

(** The state with which the chain function enters its locked part: the
    clock rate asked for when it is not known. *)
Lemma chain_resolved_frame (request_pt_map : Z -> option GstCaps)
    (priv : GstRtpJitterBufferPrivate) (pt : Z) :
  let priv' :=
    if clock_rate priv =? -1
    then snd (gst_rtp_jitter_buffer_get_clock_rate request_pt_map priv pt)
    else priv in
  jbuf priv' = jbuf priv
  /\ latency_ms priv' = latency_ms priv
  /\ drop_on_latency priv' = drop_on_latency priv
  /\ ts_offset priv' = ts_offset priv
  /\ last_popped_seqnum priv' = last_popped_seqnum priv
  /\ eos priv' = eos priv
  /\ exttimestamp priv' = exttimestamp priv
  /\ prev_ts_offset priv' = prev_ts_offset priv
  /\ srcresult priv' = srcresult priv
  /\ blocked priv' = blocked priv
  /\ segment priv' = segment priv
  /\ clock_id priv' = clock_id priv
  /\ waiting_seqnum priv' = waiting_seqnum priv
  /\ peer_latency priv' = peer_latency priv
  /\ num_late priv' = num_late priv
  /\ num_duplicates priv' = num_duplicates priv.
Proof.
  cbv zeta. destruct (clock_rate priv =? -1).
  - apply get_clock_rate_frame.
  - repeat split.
Qed.

(** X4.  The chain function writes neither the seqnum popped last, nor
    srcresult, eos and blocked, nor the three properties, nor the
    recorded offset, the extended timestamp, the segment, the peer
    latency and the seqnum waited for: whatever path it takes, these are
    as before the call. *)
Theorem chain_frame (request_pt_map : Z -> option GstCaps)
    (priv : GstRtpJitterBufferPrivate) (buffer : GstBuffer) :
  let priv' := chain_priv (gst_rtp_jitter_buffer_chain request_pt_map priv buffer) in
  last_popped_seqnum priv' = last_popped_seqnum priv
  /\ srcresult priv' = srcresult priv
  /\ eos priv' = eos priv
  /\ blocked priv' = blocked priv
  /\ latency_ms priv' = latency_ms priv
  /\ drop_on_latency priv' = drop_on_latency priv
  /\ ts_offset priv' = ts_offset priv
  /\ prev_ts_offset priv' = prev_ts_offset priv
  /\ exttimestamp priv' = exttimestamp priv
  /\ segment priv' = segment priv
  /\ peer_latency priv' = peer_latency priv
  /\ waiting_seqnum priv' = waiting_seqnum priv.
Proof.
  cbv zeta. unfold gst_rtp_jitter_buffer_chain.
  destruct (rtp_valid buffer); cbn [negb]; [| cbn; repeat split].
  pose proof (chain_resolved_frame request_pt_map priv (rtp_payload_type buffer))
    as F. cbv zeta in F.
  set (p1 := if clock_rate priv =? -1
             then snd (gst_rtp_jitter_buffer_get_clock_rate request_pt_map priv
                         (rtp_payload_type buffer))
             else priv) in *.
  destruct F as (_ & Hlat & Hdrop & Hoff & Hlast & Heos & Hext & Hprev & Hres
                 & Hblk & Hseg & _ & Hwait & Hpeer & _ & _).
  destruct (clock_rate p1 =? -1); [cbn; repeat split; congruence |].
  destruct (flow_is_ok (srcresult p1)); cbn [negb];
    [| cbn; repeat split; congruence].
  destruct (eos p1) eqn:E1; [cbn; repeat split; congruence |].
  destruct (chain_too_late p1 (rtp_seq buffer));
    [cbn; repeat split; congruence |].
  rewrite chain_drop_on_latency_eq.
  destruct (chain_queue_full p1);
    (destruct (rtp_jitter_buffer_insert _ buffer) as [[|] queue];
     [ unfold chain_unschedule_waiting; cbn [clock_id set_jbuf waiting_seqnum];
       destruct (clock_id p1);
       [destruct (rtp_seq buffer <? waiting_seqnum p1) |];
       cbn; repeat split; congruence
     | cbn; repeat split; congruence ]).
Qed.

(** X5.  A call of the chain function that does not return OK changes
    neither the store nor the two counters nor the clock entry, and
    neither signals nor unschedules. *)
Theorem chain_not_ok_drops (request_pt_map : Z -> option GstCaps)
    (priv : GstRtpJitterBufferPrivate) (buffer : GstBuffer) :
  chain_ret (gst_rtp_jitter_buffer_chain request_pt_map priv buffer) <> GST_FLOW_OK ->
  let r := gst_rtp_jitter_buffer_chain request_pt_map priv buffer in
  jbuf (chain_priv r) = jbuf priv
  /\ num_late (chain_priv r) = num_late priv
  /\ num_duplicates (chain_priv r) = num_duplicates priv
  /\ clock_id (chain_priv r) = clock_id priv
  /\ chain_signal r = false
  /\ chain_unschedule r = false.
Proof.
  cbv zeta. unfold gst_rtp_jitter_buffer_chain.
  destruct (rtp_valid buffer); cbn [negb]; [| cbn; repeat split].
  pose proof (chain_resolved_frame request_pt_map priv (rtp_payload_type buffer))
    as F. cbv zeta in F.
  set (p1 := if clock_rate priv =? -1
             then snd (gst_rtp_jitter_buffer_get_clock_rate request_pt_map priv
                         (rtp_payload_type buffer))
             else priv) in *.
  destruct F as (Hj & _ & _ & _ & _ & _ & _ & _ & _ & _ & _ & Hid & _ & _
                 & Hl & Hd).
  destruct (clock_rate p1 =? -1); [cbn; repeat split; congruence |].
  destruct (flow_is_ok (srcresult p1)); cbn [negb];
    [| cbn; repeat split; congruence].
  destruct (eos p1); [cbn; repeat split; congruence |].
  destruct (chain_too_late p1 (rtp_seq buffer));
    [cbn [chain_ret]; intros C; contradiction |].
  destruct (rtp_jitter_buffer_insert _ buffer) as [[|] queue].
  - destruct (chain_unschedule_waiting _ _) as [u p3].
    cbn [chain_ret]. intros C; contradiction.
  - cbn [chain_ret]. intros C; contradiction.
Qed.

Lemma chain_not_ok_drops_witness :
  let priv :=
    gst_rtp_jitter_buffer_flush_start
      (Examples.pushed (Examples.started 100 8000) [Examples.packet 7 8000]) in
  let r :=
    gst_rtp_jitter_buffer_chain Examples.no_pt_map priv (Examples.packet 8 8160) in
  chain_ret r = GST_FLOW_WRONG_STATE /\ jbuf (chain_priv r) = jbuf priv.
Proof.
  cbv zeta. split; [vm_compute; reflexivity |].
  refine (proj1
    (chain_not_ok_drops Examples.no_pt_map
       (gst_rtp_jitter_buffer_flush_start
          (Examples.pushed (Examples.started 100 8000) [Examples.packet 7 8000]))
       (Examples.packet 8 8160) _)).
  vm_compute. discriminate.
Defined.

(** X6.  Once the task has stored a flow return other than OK (the label
    pause, after gst_pad_push), every valid packet with a known clock rate
    is refused with that very return value and the private structure is
    left as it is. *)
Theorem chain_returns_stored_result (request_pt_map : Z -> option GstCaps)
    (priv : GstRtpJitterBufferPrivate) (result : GstFlowReturn)
    (buffer : GstBuffer) :
  rtp_valid buffer = true ->
  clock_rate priv <> -1 ->
  result <> GST_FLOW_OK ->
  gst_rtp_jitter_buffer_chain request_pt_map (loop_pause priv result) buffer
  = mkChain result (loop_pause priv result) false false.
Proof.
  intros Hvalid Hrate Hres.
  assert (Hp : loop_pause priv result = set_srcresult priv result)
    by (unfold loop_pause; destruct result; try reflexivity; contradiction).
  rewrite Hp. unfold gst_rtp_jitter_buffer_chain.
  assert (Hc : (clock_rate (set_srcresult priv result) =? -1) = false)
    by (cbn [clock_rate set_srcresult]; apply Z.eqb_neq; exact Hrate).
  rewrite Hvalid. cbn [negb]. rewrite Hc. cbv zeta. rewrite Hc.
  cbn [srcresult set_srcresult].
  destruct result; try reflexivity; contradiction.
Qed.

Lemma chain_returns_stored_result_witness :
  chain_ret
    (gst_rtp_jitter_buffer_chain Examples.no_pt_map
       (loop_pause (Examples.started 100 8000) GST_FLOW_NOT_LINKED)
       (Examples.packet 1 8000))
  = GST_FLOW_NOT_LINKED.
Proof.
  rewrite (chain_returns_stored_result Examples.no_pt_map
             (Examples.started 100 8000) GST_FLOW_NOT_LINKED
             (Examples.packet 1 8000)).
  - reflexivity.
  - reflexivity.
  - vm_compute. discriminate.
  - discriminate.
Defined.

(** X7.  When the clock rate is not known and request-pt-map answers with
    caps whose clock-rate is 0 or negative but not -1, the caps are
    refused and yet the packet is not turned away as not negotiated: the
    refused rate stays in the private structure and the chain function
    goes on to return OK (UNEXPECTED at EOS). *)
Theorem chain_refused_rate_kept (request_pt_map : Z -> option GstCaps)
    (priv : GstRtpJitterBufferPrivate) (buffer : GstBuffer)
    (caps : GstCaps) (rate : Z) :
  rtp_valid buffer = true ->
  clock_rate priv = -1 ->
  srcresult priv = GST_FLOW_OK ->
  request_pt_map (rtp_payload_type buffer) = Some caps ->
  caps_clock_rate caps = Some rate ->
  rate <= 0 -> rate <> -1 ->
  let r := gst_rtp_jitter_buffer_chain request_pt_map priv buffer in
  fst (gst_jitter_buffer_sink_parse_caps priv caps) = false
  /\ clock_rate (chain_priv r) = rate
  /\ chain_ret r = if eos priv then GST_FLOW_UNEXPECTED else GST_FLOW_OK.
Proof.
  intros Hvalid Hrate Hres Hrq Hcaps Hle Hne. cbv zeta.
  split; [rewrite (parse_caps_refused_rate priv caps rate) by assumption;
          reflexivity |].
  unfold gst_rtp_jitter_buffer_chain.
  rewrite Hvalid, Hrate. cbn [negb Z.eqb Pos.eqb].
  unfold gst_rtp_jitter_buffer_get_clock_rate. rewrite Hrq.
  rewrite (parse_caps_refused_rate priv caps rate) by assumption.
  cbn [snd]. cbv zeta. cbn [clock_rate set_clock_rate srcresult eos].
  apply Z.eqb_neq in Hne. rewrite Hne, Hres. cbn [flow_is_ok negb].
  destruct (eos priv); [split; reflexivity |].
  destruct (chain_too_late _ _); [split; reflexivity |].
  rewrite chain_drop_on_latency_eq.
  destruct (chain_queue_full _);
    (destruct (rtp_jitter_buffer_insert _ buffer) as [[|] queue];
     [ unfold chain_unschedule_waiting; cbn [clock_id set_jbuf set_clock_rate];
       destruct (clock_id priv);
       [destruct (rtp_seq buffer <? _) |]; split; reflexivity
     | split; reflexivity ]).
Qed.

Lemma chain_refused_rate_kept_witness :
  let request := fun _ : Z => Some (mkCaps (Some 0) None None) in
  let r :=
    gst_rtp_jitter_buffer_chain request (Examples.started 100 (-1))
      (Examples.packet 1 8000) in
  clock_rate (chain_priv r) = 0 /\ chain_ret r = GST_FLOW_OK.
Proof.
  cbv zeta.
  refine (proj2
    (chain_refused_rate_kept (fun _ : Z => Some (mkCaps (Some 0) None None))
       (Examples.started 100 (-1)) (Examples.packet 1 8000)
       (mkCaps (Some 0) None None) 0
       eq_refl eq_refl eq_refl eq_refl eq_refl _ _)).
  - lia.
  - discriminate.
Defined.

(** X8.  A packet that lies less than half the range behind the seqnum
    popped last, the wrap at 65535 counted in, is dropped as too late: the
    chain function returns OK, adds one to num_late and changes nothing
    else. *)
Theorem chain_late_packet_dropped (request_pt_map : Z -> option GstCaps)
    (priv : GstRtpJitterBufferPrivate) (buffer : GstBuffer) :
  rtp_valid buffer = true ->
  clock_rate priv <> -1 ->
  srcresult priv = GST_FLOW_OK ->
  eos priv = false ->
  is_guint16 (last_popped_seqnum priv) ->
  is_guint16 (rtp_seq buffer) ->
  0 < (last_popped_seqnum priv - rtp_seq buffer) mod 2 ^ 16 < 2 ^ 15 ->
  gst_rtp_jitter_buffer_chain request_pt_map priv buffer
  = mkChain GST_FLOW_OK (set_num_late priv (to_guint64 (num_late priv + 1)))
      false false.
Proof.
  intros Hvalid Hrate Hres Heos Hlast Hseq Hbehind.
  apply chain_too_late_dropped; try assumption.
  - unfold is_guint16, G_MAXUINT16 in Hlast. rewrite SEQNUM_NONE_value. lia.
  - rewrite to_guint16_id by assumption.
    apply priv_compare_rtp_seq_lt_neg_iff; try assumption.
    left. assumption.
Qed.

Lemma chain_late_packet_dropped_witness :
  let priv := set_last_popped_seqnum (Examples.started 100 8000) 2 in
  let r :=
    gst_rtp_jitter_buffer_chain Examples.no_pt_map priv
      (Examples.packet 65534 8000) in
  chain_ret r = GST_FLOW_OK /\ num_late (chain_priv r) = 1 /\ jbuf (chain_priv r) = [].
Proof.
  cbv zeta.
  rewrite (chain_late_packet_dropped Examples.no_pt_map
             (set_last_popped_seqnum (Examples.started 100 8000) 2)
             (Examples.packet 65534 8000)).
  - repeat split.
  - reflexivity.
  - vm_compute. discriminate.
  - reflexivity.
  - reflexivity.
  - vm_compute. split; discriminate.
  - vm_compute. split; discriminate.
  - vm_compute. split; reflexivity.
Defined.

(** X9.  A packet that arrives while the clock rate is not known, and for
    whose payload type request-pt-map answers with caps that are accepted,
    is handled exactly as if those caps had been set before the call. *)
Theorem chain_resolves_then_proceeds (request_pt_map : Z -> option GstCaps)
    (priv : GstRtpJitterBufferPrivate) (buffer : GstBuffer) (caps : GstCaps) :
  rtp_valid buffer = true ->
  clock_rate priv = -1 ->
  request_pt_map (rtp_payload_type buffer) = Some caps ->
  fst (gst_jitter_buffer_sink_parse_caps priv caps) = true ->
  gst_rtp_jitter_buffer_chain request_pt_map priv buffer
  = gst_rtp_jitter_buffer_chain request_pt_map
      (snd (gst_jitter_buffer_sink_parse_caps priv caps)) buffer.
Proof.
  intros Hvalid Hrate Hrq Hok.
  pose proof (parse_caps_rate_positive priv caps Hok) as Hpos.
  unfold gst_rtp_jitter_buffer_chain.
  rewrite Hvalid, Hrate. cbn [negb Z.eqb Pos.eqb].
  unfold gst_rtp_jitter_buffer_get_clock_rate. rewrite Hrq.
  assert (Hc : (clock_rate (snd (gst_jitter_buffer_sink_parse_caps priv caps))
                =? -1) = false) by (apply Z.eqb_neq; lia).
  cbv zeta. rewrite !Hc. reflexivity.
Qed.

Lemma chain_resolves_then_proceeds_witness :
  let request := fun _ : Z => Some (mkCaps (Some 90000) (Some 1234) None) in
  let r :=
    gst_rtp_jitter_buffer_chain request (Examples.started 100 (-1))
      (Examples.packet 1 8000) in
  chain_ret r = GST_FLOW_OK
  /\ clock_rate (chain_priv r) = 90000
  /\ clock_base (chain_priv r) = 1234.
Proof.
  cbv zeta.
  rewrite (chain_resolves_then_proceeds
             (fun _ : Z => Some (mkCaps (Some 90000) (Some 1234) None))
             (Examples.started 100 (-1)) (Examples.packet 1 8000)
             (mkCaps (Some 90000) (Some 1234) None)
             eq_refl eq_refl eq_refl eq_refl).
  repeat apply conj; vm_compute; reflexivity.
Defined.

(** X10.  After a flush stop, and after clear-pt-map, the clock rate is
    asked for again: a valid packet for whose payload type request-pt-map
    has no answer is refused as not negotiated and nothing changes. *)
Theorem chain_not_negotiated_after_reset (request_pt_map : Z -> option GstCaps)
    (priv : GstRtpJitterBufferPrivate) (buffer : GstBuffer) :
  rtp_valid buffer = true ->
  request_pt_map (rtp_payload_type buffer) = None ->
  gst_rtp_jitter_buffer_chain request_pt_map
    (gst_rtp_jitter_buffer_flush_stop priv) buffer
  = mkChain GST_FLOW_NOT_NEGOTIATED (gst_rtp_jitter_buffer_flush_stop priv)
      false false
  /\ gst_rtp_jitter_buffer_chain request_pt_map
       (gst_rtp_jitter_buffer_clear_pt_map priv) buffer
     = mkChain GST_FLOW_NOT_NEGOTIATED (gst_rtp_jitter_buffer_clear_pt_map priv)
         false false.
Proof.
  intros Hvalid Hrq.
  split; unfold gst_rtp_jitter_buffer_chain; rewrite Hvalid; cbn [negb];
    unfold gst_rtp_jitter_buffer_get_clock_rate; rewrite Hrq; reflexivity.
Qed.

Lemma chain_not_negotiated_after_reset_witness :
  chain_ret
    (gst_rtp_jitter_buffer_chain Examples.no_pt_map
       (gst_rtp_jitter_buffer_flush_stop (Examples.started 100 8000))
       (Examples.packet 1 8000))
  = GST_FLOW_NOT_NEGOTIATED.
Proof.
  rewrite (proj1 (chain_not_negotiated_after_reset Examples.no_pt_map
                    (Examples.started 100 8000) (Examples.packet 1 8000)
                    eq_refl eq_refl)).
  reflexivity.
Defined.

(** ** The store across a call of the chain function *)

(** What a call of the chain function can make of the store: nothing, the
    store without its head, or either of the two with the packet
    inserted, its seqnum not having been resident. *)
Lemma chain_store_cases (request_pt_map : Z -> option GstCaps)
    (priv : GstRtpJitterBufferPrivate) (buffer : GstBuffer) :
  let queue := jbuf priv in
  let queue' :=
    jbuf (chain_priv (gst_rtp_jitter_buffer_chain request_pt_map priv buffer)) in
  queue' = queue
  \/ queue' = tl queue
  \/ (has_seq (rtp_seq buffer) queue = false
      /\ queue' = insert_ordered buffer queue)
  \/ (has_seq (rtp_seq buffer) (tl queue) = false
      /\ queue' = insert_ordered buffer (tl queue)).
Proof.
  cbv zeta. unfold gst_rtp_jitter_buffer_chain.
  destruct (rtp_valid buffer); cbn [negb]; [| left; reflexivity].
  pose proof (chain_resolved_frame request_pt_map priv (rtp_payload_type buffer))
    as F. cbv zeta in F.
  set (p1 := if clock_rate priv =? -1
             then snd (gst_rtp_jitter_buffer_get_clock_rate request_pt_map priv
                         (rtp_payload_type buffer))
             else priv) in *.
  destruct F as (Hj & _).
  destruct (clock_rate p1 =? -1); [left; exact Hj |].
  destruct (flow_is_ok (srcresult p1)); cbn [negb]; [| left; exact Hj].
  destruct (eos p1); [left; exact Hj |].
  destruct (chain_too_late p1 (rtp_seq buffer)); [left; exact Hj |].
  rewrite chain_drop_on_latency_eq.
  unfold rtp_jitter_buffer_insert.
  destruct (chain_queue_full p1); cbn [jbuf set_jbuf]; rewrite Hj.
  - destruct (has_seq (rtp_seq buffer) (tl (jbuf priv))) eqn:E.
    + right. left. reflexivity.
    + right. right. right. split; [reflexivity |].
      unfold chain_unschedule_waiting. cbn [clock_id set_jbuf waiting_seqnum].
      destruct (clock_id p1); [destruct (rtp_seq buffer <? _) |]; reflexivity.
  - destruct (has_seq (rtp_seq buffer) (jbuf priv)) eqn:E.
    + left. exact Hj.
    + right. right. left. split; [reflexivity |].
      unfold chain_unschedule_waiting. cbn [clock_id set_jbuf waiting_seqnum].
      destruct (clock_id p1); [destruct (rtp_seq buffer <? _) |]; reflexivity.
Qed.

Lemma NoDup_tl_seqs (queue : RTPJitterBuffer) :
  NoDup (map rtp_seq queue) -> NoDup (map rtp_seq (tl queue)).
Proof.
  destruct queue as [| x rest]; cbn [tl map]; intros H.
  - exact H.
  - inversion H; assumption.
Qed.

(** X11.  With the store of rtpjitterbuffer.c refusing a seqnum that is
    resident, no call of the chain function brings a second packet with
    the same seqnum into the store: seqnums that are distinct before the
    call are distinct after it. *)
Theorem chain_keeps_seqnums_distinct (request_pt_map : Z -> option GstCaps)
    (priv : GstRtpJitterBufferPrivate) (buffer : GstBuffer) :
  NoDup (map rtp_seq (jbuf priv)) ->
  NoDup (map rtp_seq
           (jbuf (chain_priv
                    (gst_rtp_jitter_buffer_chain request_pt_map priv buffer)))).
Proof.
  intros Hnd.
  destruct (chain_store_cases request_pt_map priv buffer)
    as [E | [E | [(Hno & E) | (Hno & E)]]]; cbv zeta in E; rewrite E.
  - exact Hnd.
  - apply NoDup_tl_seqs. exact Hnd.
  - apply insert_ordered_NoDup; assumption.
  - apply insert_ordered_NoDup; [apply NoDup_tl_seqs; exact Hnd | assumption].
Qed.

Lemma chain_keeps_seqnums_distinct_witness :
  NoDup (map rtp_seq
           (jbuf (Examples.pushed (Examples.started 100 8000)
                    [Examples.packet 3 8320; Examples.packet 1 8000;
                     Examples.packet 3 8320; Examples.packet 2 8160]))).
Proof.
  unfold Examples.pushed. cbn [fold_left].
  repeat apply chain_keeps_seqnums_distinct.
  constructor.
Defined.

(** X12.  A call of the chain function changes the number of packets in
    the store by one at most, up or down. *)
Theorem chain_store_size (request_pt_map : Z -> option GstCaps)
    (priv : GstRtpJitterBufferPrivate) (buffer : GstBuffer) :
  let n := rtp_jitter_buffer_num_packets (jbuf priv) in
  let n' :=
    rtp_jitter_buffer_num_packets
      (jbuf (chain_priv (gst_rtp_jitter_buffer_chain request_pt_map priv buffer))) in
  n - 1 <= n' <= n + 1.
Proof.
  cbv zeta. unfold rtp_jitter_buffer_num_packets.
  destruct (chain_store_cases request_pt_map priv buffer)
    as [E | [E | [(_ & E) | (_ & E)]]]; cbv zeta in E; rewrite E;
    rewrite ?insert_ordered_length;
    destruct (jbuf priv); cbn [tl length]; lia.
Qed.

(** ** Events *)

Section EventProperties.

Variable gst_segment_set_newsegment_full :
  GstSegment -> bool -> Z * Z -> Z * Z -> GstFormat -> Z -> Z -> Z -> GstSegment.
Variable gst_pad_push_event : GstEvent -> bool.

(** X13.  An EOS event on an element that is not flushing is answered
    with TRUE, sets eos and is not handed downstream; a second EOS changes
    nothing more; and from then on a valid packet with a known clock rate
    is refused with UNEXPECTED, the private structure being left as it
    is. *)
Theorem sink_event_eos_refuses_packets
    (request_pt_map : Z -> option GstCaps)
    (priv : GstRtpJitterBufferPrivate) (buffer : GstBuffer) :
  srcresult priv = GST_FLOW_OK ->
  rtp_valid buffer = true ->
  clock_rate priv <> -1 ->
  let e := gst_rtp_jitter_buffer_sink_event gst_segment_set_newsegment_full
    gst_pad_push_event priv GST_EVENT_EOS in
  event_ret e = true
  /\ eos (event_priv e) = true
  /\ event_pushed e = None
  /\ gst_rtp_jitter_buffer_sink_event gst_segment_set_newsegment_full
    gst_pad_push_event (event_priv e) GST_EVENT_EOS = e
  /\ gst_rtp_jitter_buffer_chain request_pt_map (event_priv e) buffer
     = mkChain GST_FLOW_UNEXPECTED (event_priv e) false false.
Proof.
  intros Hres Hvalid Hrate. cbv zeta.
  unfold gst_rtp_jitter_buffer_sink_event,
    gst_rtp_jitter_buffer_sink_event_eos.
  rewrite Hres. cbn [flow_is_ok andb].
  destruct (eos priv) eqn:Heos; cbn [negb event_ret event_priv event_pushed].
  - rewrite Hres, Heos. cbn [flow_is_ok andb negb].
    repeat split; try assumption.
    unfold gst_rtp_jitter_buffer_chain.
    apply Z.eqb_neq in Hrate.
    rewrite Hvalid. cbn [negb]. rewrite Hrate. cbv zeta.
    rewrite Hrate, Hres, Heos. reflexivity.
  - cbn [srcresult eos set_eos]. rewrite Hres. cbn [flow_is_ok andb negb].
    repeat split.
    unfold gst_rtp_jitter_buffer_chain.
    assert (Hc : (clock_rate (set_eos priv true) =? -1) = false)
      by (cbn [clock_rate set_eos]; apply Z.eqb_neq; exact Hrate).
    rewrite Hvalid. cbn [negb]. rewrite Hc. cbv zeta. rewrite Hc.
    cbn [srcresult eos set_eos]. rewrite Hres. reflexivity.
Qed.

(** X14.  A NEWSEGMENT event in a format other than TIME is answered with
    FALSE: the segment and everything else stay as they are and the event
    is not handed downstream. *)
Theorem sink_event_newsegment_wrong_format
    (priv : GstRtpJitterBufferPrivate) (update : bool) (rate arate : Z * Z)
    (format : GstFormat) (start stop time : Z) :
  format <> GST_FORMAT_TIME ->
  gst_rtp_jitter_buffer_sink_event gst_segment_set_newsegment_full
    gst_pad_push_event priv (GST_EVENT_NEWSEGMENT update rate arate format start stop time)
  = mkEvent false priv None.
Proof.
  intros Hf. unfold gst_rtp_jitter_buffer_sink_event.
  destruct format; try reflexivity. contradiction.
Qed.

(** X15.  A flush start followed by a flush stop.  The flush stop is
    answered with TRUE whatever downstream answers.  Afterwards the store
    is empty, srcresult is OK, no seqnum is popped or expected, the clock
    rate is unknown and eos is FALSE; the two counters, the clock base,
    the recorded offset and blocked are as before the flush, and a clock
    entry, if there is one, is unscheduled and still in place. *)
Theorem sink_event_flush_cycle (priv : GstRtpJitterBufferPrivate) :
  let e1 := gst_rtp_jitter_buffer_sink_event gst_segment_set_newsegment_full
    gst_pad_push_event priv GST_EVENT_FLUSH_START in
  let e2 := gst_rtp_jitter_buffer_sink_event gst_segment_set_newsegment_full
    gst_pad_push_event (event_priv e1) GST_EVENT_FLUSH_STOP in
  let priv' := event_priv e2 in
  (event_ret e1 = gst_pad_push_event GST_EVENT_FLUSH_START
   /\ event_ret e2 = true
   /\ event_pushed e1 = Some GST_EVENT_FLUSH_START
   /\ event_pushed e2 = Some GST_EVENT_FLUSH_STOP)
  /\ (jbuf priv' = []
      /\ srcresult priv' = GST_FLOW_OK
      /\ last_popped_seqnum priv' = SEQNUM_NONE
      /\ next_seqnum priv' = SEQNUM_NONE
      /\ clock_rate priv' = -1
      /\ eos priv' = false)
  /\ (num_late priv' = num_late priv
      /\ num_duplicates priv' = num_duplicates priv
      /\ clock_base priv' = clock_base priv
      /\ prev_ts_offset priv' = prev_ts_offset priv
      /\ blocked priv' = blocked priv
      /\ clock_id priv' = option_map gst_clock_id_unschedule (clock_id priv)).
Proof.
  cbv zeta. unfold gst_rtp_jitter_buffer_sink_event.
  cbn [event_priv event_ret event_pushed
       gst_rtp_jitter_buffer_src_activate_push].
  unfold gst_rtp_jitter_buffer_flush_start.
  cbn [clock_id set_jbuf set_srcresult].
  destruct (clock_id priv) as [id |] eqn:E; cbn; rewrite ?E; repeat split.
Qed.

End EventProperties.

Lemma sink_event_eos_refuses_packets_witness :
  let e :=
    gst_rtp_jitter_buffer_sink_event (fun s _ _ _ _ _ _ _ => s) (fun _ => true)
      (Examples.started 100 8000) GST_EVENT_EOS in
  event_ret e = true
  /\ chain_ret
       (gst_rtp_jitter_buffer_chain Examples.no_pt_map (event_priv e)
          (Examples.packet 1 8000))
     = GST_FLOW_UNEXPECTED.
Proof.
  cbv zeta.
  pose proof
    (sink_event_eos_refuses_packets (fun s _ _ _ _ _ _ _ => s) (fun _ => true)
       Examples.no_pt_map (Examples.started 100 8000) (Examples.packet 1 8000)
       eq_refl eq_refl) as H.
  cbv zeta in H.
  destruct H as (Hret & _ & _ & _ & Hchain); [vm_compute; discriminate |].
  split; [exact Hret |].
  rewrite Hchain. reflexivity.
Defined.

Lemma sink_event_newsegment_wrong_format_witness :
  event_ret
    (gst_rtp_jitter_buffer_sink_event (fun s _ _ _ _ _ _ _ => s) (fun _ => true)
       (Examples.started 100 8000)
       (GST_EVENT_NEWSEGMENT false (1, 1) (1, 1) GST_FORMAT_BYTES 0 (-1) 0))
  = false.
Proof.
  rewrite (sink_event_newsegment_wrong_format (fun s _ _ _ _ _ _ _ => s)
             (fun _ => true) (Examples.started 100 8000) false (1, 1) (1, 1)
             GST_FORMAT_BYTES 0 (-1) 0).
  - reflexivity.
  - discriminate.
Defined.

(** ** State changes, properties, the latency query *)

(** X16.  Going to PAUSED, from READY or from PLAYING, the element
    answers NO_PREROLL, and on every other transition what the parent
    class answers; a failure of the parent class is always passed on, and
    no failure is reported that the parent class did not report.  After
    PLAYING_TO_PAUSED blocked is set; the parent class is called with
    blocked set on READY_TO_PAUSED and cleared on PAUSED_TO_PLAYING. *)
Theorem change_state_live
    (parent_change_state :
       GstStateChange -> GstRtpJitterBufferPrivate
       -> GstStateChangeReturn * GstRtpJitterBufferPrivate)
    (priv : GstRtpJitterBufferPrivate) (transition : GstStateChange) :
  let before := change_state_upwards priv transition in
  let parent := parent_change_state transition before in
  let r := gst_rtp_jitter_buffer_change_state parent_change_state priv transition in
  (fst r = GST_STATE_CHANGE_FAILURE <-> fst parent = GST_STATE_CHANGE_FAILURE)
  /\ (fst parent <> GST_STATE_CHANGE_FAILURE ->
      fst r = match transition with
              | GST_STATE_CHANGE_READY_TO_PAUSED
              | GST_STATE_CHANGE_PLAYING_TO_PAUSED => GST_STATE_CHANGE_NO_PREROLL
              | _ => fst parent
              end)
  /\ (transition = GST_STATE_CHANGE_PLAYING_TO_PAUSED -> blocked (snd r) = true)
  /\ (transition = GST_STATE_CHANGE_READY_TO_PAUSED ->
      blocked before = true /\ clock_rate before = -1 /\ clock_base before = -1
      /\ peer_latency before = 0)
  /\ (transition = GST_STATE_CHANGE_PAUSED_TO_PLAYING -> blocked before = false).
Proof.
  cbv zeta. unfold gst_rtp_jitter_buffer_change_state.
  destruct (parent_change_state transition (change_state_upwards priv transition))
    as [ret p] eqn:E.
  destruct transition, ret; cbn; repeat split;
    solve [ discriminate | congruence | intros; discriminate
          | intros; congruence | intros C; exfalso; apply C; reflexivity ].
Qed.

Lemma change_state_live_witness :
  let parent := fun (_ : GstStateChange) (p : GstRtpJitterBufferPrivate) =>
                  (GST_STATE_CHANGE_SUCCESS, p) in
  let r :=
    gst_rtp_jitter_buffer_change_state parent (Examples.started 100 8000)
      GST_STATE_CHANGE_PLAYING_TO_PAUSED in
  fst r = GST_STATE_CHANGE_NO_PREROLL /\ blocked (snd r) = true.
Proof.
  cbv zeta.
  destruct (change_state_live
              (fun (_ : GstStateChange) (p : GstRtpJitterBufferPrivate) =>
                 (GST_STATE_CHANGE_SUCCESS, p))
              (Examples.started 100 8000) GST_STATE_CHANGE_PLAYING_TO_PAUSED)
    as (_ & Hret & Hblk & _).
  cbv zeta in Hret, Hblk.
  split; [apply Hret; discriminate | apply Hblk; reflexivity].
Defined.

(** X17.  A property that is set reads back as the value given, the other
    two properties read as before, and a latency message is posted exactly
    when the latency is set to a value other than the one it had. *)
Theorem property_round_trip (priv : GstRtpJitterBufferPrivate)
    (prop_id : PropId) (value : GValue) :
  match prop_id, value with
  | PROP_LATENCY, G_VALUE_UINT _
  | PROP_DROP_ON_LATENCY, G_VALUE_BOOLEAN _
  | PROP_TS_OFFSET, G_VALUE_INT64 _ => True
  | _, _ => False
  end ->
  let r := gst_rtp_jitter_buffer_set_property priv prop_id value in
  gst_rtp_jitter_buffer_get_property (fst r) prop_id = Some value
  /\ (forall other, other <> prop_id ->
      gst_rtp_jitter_buffer_get_property (fst r) other
      = gst_rtp_jitter_buffer_get_property priv other)
  /\ (snd r = true
      <-> prop_id = PROP_LATENCY /\ value <> G_VALUE_UINT (latency_ms priv)).
Proof.
  cbv zeta.
  destruct prop_id, value; cbn; intros H; try contradiction.
  - split; [reflexivity |].
    split; [intros other Hne; destruct other; try reflexivity; contradiction |].
    destruct (Z.eqb_spec v (latency_ms priv)) as [E | N]; cbn.
    + split; [discriminate |]. intros (_ & Hv). subst. contradiction.
    + split; [| reflexivity]. intros _. split; [reflexivity | congruence].
  - split; [reflexivity |].
    split; [intros other Hne; destruct other; try reflexivity; contradiction |].
    split; [discriminate |]. intros (C & _). discriminate C.
  - split; [reflexivity |].
    split; [intros other Hne; destruct other; try reflexivity; contradiction |].
    split; [discriminate |]. intros (C & _). discriminate C.
Qed.

Lemma property_round_trip_witness :
  let r :=
    gst_rtp_jitter_buffer_set_property (Examples.started 200 8000)
      PROP_LATENCY (G_VALUE_UINT 50) in
  gst_rtp_jitter_buffer_get_property (fst r) PROP_LATENCY = Some (G_VALUE_UINT 50)
  /\ snd r = true.
Proof.
  cbv zeta.
  destruct (property_round_trip (Examples.started 200 8000) PROP_LATENCY
              (G_VALUE_UINT 50) I) as (Hget & _ & Hmsg).
  cbv zeta in Hmsg.
  split; [exact Hget |].
  apply Hmsg. split; [reflexivity | discriminate].
Defined.

(** X18.  A latency query that the peer answers is answered with TRUE and
    live; the minimum of the peer is kept as peer_latency and reported
    with latency_ms * GST_MSECOND added, and a maximum of -1 (none) is
    reported as -1.  Without a peer, or with a peer that refuses the
    query, the answer is FALSE and nothing is stored. *)
Theorem query_latency_minimum (priv : GstRtpJitterBufferPrivate)
    (live : bool) (min_latency max_latency : Z) :
  is_guint32 (latency_ms priv) ->
  0 <= min_latency ->
  min_latency + latency_ms priv * GST_MSECOND <= G_MAXUINT64 ->
  let r :=
    gst_rtp_jitter_buffer_query_latency priv
      (Some (Some (live, min_latency, max_latency))) in
  fst (fst r) = true
  /\ peer_latency (snd (fst r)) = min_latency
  /\ (exists reported_max,
        snd r = Some (true, min_latency + latency_ms priv * GST_MSECOND,
                      reported_max)
        /\ (max_latency = G_MAXUINT64 -> reported_max = G_MAXUINT64))
  /\ gst_rtp_jitter_buffer_query_latency priv None = (false, priv, None)
  /\ gst_rtp_jitter_buffer_query_latency priv (Some None) = (false, priv, None).
Proof.
  unfold is_guint32, G_MAXUINT32, G_MAXUINT64, GST_MSECOND.
  intros Hl Hmin0 Hmin. cbv zeta.
  unfold gst_rtp_jitter_buffer_query_latency.
  cbn [fst snd latency_ms set_peer_latency peer_latency].
  unfold GST_MSECOND.
  rewrite (to_guint64_id (latency_ms priv))
    by (unfold is_guint64, G_MAXUINT64; lia).
  rewrite (to_guint64_id (latency_ms priv * 1000000))
    by (unfold is_guint64, G_MAXUINT64; lia).
  rewrite (to_guint64_id (min_latency + _))
    by (unfold is_guint64, G_MAXUINT64; lia).
  change (to_guint64 (-1)) with G_MAXUINT64. unfold G_MAXUINT64.
  repeat split.
  eexists. split; [reflexivity |].
  intros ->. reflexivity.
Qed.

Lemma query_latency_minimum_witness :
  snd (gst_rtp_jitter_buffer_query_latency (Examples.started 200 8000)
         (Some (Some (false, 20000000, G_MAXUINT64))))
  = Some (true, 220000000, G_MAXUINT64).
Proof.
  destruct (query_latency_minimum (Examples.started 200 8000) false 20000000
              G_MAXUINT64) as (_ & _ & (m & Hr & Hm) & _).
  - vm_compute. split; discriminate.
  - lia.
  - vm_compute. discriminate.
  - cbv zeta in Hr. rewrite Hr, (Hm eq_refl). reflexivity.
Defined.

(** ** The task, all paths *)

Lemma loop_push_buffer_seq (priv : GstRtpJitterBufferPrivate)
    (outbuf : GstBuffer) (seqnum : Z) :
  rtp_seq (snd (loop_push_buffer priv outbuf seqnum)) = rtp_seq outbuf.
Proof.
  unfold loop_push_buffer.
  repeat match goal with
         | |- context [if ?c then _ else _] => destruct c
         end; reflexivity.
Qed.

(** A buffer that the handling of a popped buffer pushes has gone through
    the code at the label push_buffer with its own seqnum. *)
Lemma loop_sync_push_inv
    (gst_rtp_buffer_ext_timestamp : Z -> Z -> Z)
    (gst_segment_to_running_time : GstSegment -> GstFormat -> Z -> Z)
    (clock_id_wait : GstRtpJitterBufferPrivate -> GstRtpJitterBufferPrivate)
    (element : GstElement)
    (priv : GstRtpJitterBufferPrivate) (outbuf : GstBuffer)
    (waits : list ClockWait) (r : LoopResult) :
  loop_sync gst_rtp_buffer_ext_timestamp gst_segment_to_running_time
    clock_id_wait element priv outbuf = (waits, SYNC_DONE r) ->
  (exists p, r = LOOP_PUSH (fst (loop_push_buffer p outbuf (rtp_seq outbuf)))
                   (snd (loop_push_buffer p outbuf (rtp_seq outbuf))))
  \/ (exists p, r = LOOP_FLUSHING p /\ waits <> []).
Proof.
  unfold loop_sync. intros H.
  destruct ((next_seqnum _ =? SEQNUM_NONE) || negb (next_seqnum _ =? rtp_seq outbuf)).
  - destruct (loop_running_time _ _ _) as [p t].
    destruct (negb (element_has_clock element)).
    + destruct (loop_push_buffer p outbuf (rtp_seq outbuf)) as [p' b'] eqn:E.
      injection H as <- <-. left. exists p. rewrite E. reflexivity.
    + match type of H with
      | context [flow_is_ok (srcresult ?q)] =>
          destruct (flow_is_ok (srcresult q)); cbn [negb] in H
      end.
      * match type of H with
        | context [clock_is_unscheduled ?c] => destruct (clock_is_unscheduled c)
        end.
        -- destruct (rtp_jitter_buffer_insert _ outbuf) as [[|] queue];
             discriminate H.
        -- match type of H with
           | context [loop_push_buffer ?q outbuf _] =>
               destruct (loop_push_buffer q outbuf (rtp_seq outbuf))
                 as [p' b'] eqn:E;
               injection H as <- <-; left; exists q; rewrite E; reflexivity
           end.
      * injection H as <- <-. right. eexists. split; [reflexivity | discriminate].
  - match type of H with
    | context [loop_push_buffer ?q outbuf _] =>
        destruct (loop_push_buffer q outbuf (rtp_seq outbuf)) as [p' b'] eqn:E;
        injection H as <- <-; left; exists q; rewrite E; reflexivity
    end.
Qed.

(** X19.  Whenever a round of the task ends with a buffer going to
    gst_pad_push, whatever the other threads did while the task had
    released the lock, the seqnum popped last is that of the buffer and
    the seqnum expected next is the following one modulo 2^16. *)
Theorem loop_push_expected_next
    (gst_rtp_buffer_ext_timestamp : Z -> Z -> Z)
    (gst_segment_to_running_time : GstSegment -> GstFormat -> Z -> Z)
    (jbuf_wait clock_id_wait : GstRtpJitterBufferPrivate -> GstRtpJitterBufferPrivate)
    (element : GstElement) (rounds : nat)
    (priv priv' : GstRtpJitterBufferPrivate) (waits : list ClockWait)
    (outbuf : GstBuffer) :
  gst_rtp_jitter_buffer_loop gst_rtp_buffer_ext_timestamp
    gst_segment_to_running_time jbuf_wait clock_id_wait element rounds priv
  = (waits, LOOP_PUSH priv' outbuf) ->
  last_popped_seqnum priv' = rtp_seq outbuf
  /\ next_seqnum priv' = (rtp_seq outbuf + 1) mod 2 ^ 16
  /\ 0 <= next_seqnum priv' < 2 ^ 16.
Proof.
  unfold gst_rtp_jitter_buffer_loop.
  destruct (negb (flow_is_ok (srcresult priv))); [discriminate |].
  revert priv waits.
  induction rounds as [| n IH]; intros priv waits H; cbn [loop_again] in H.
  - discriminate H.
  - destruct (negb (blocked priv) && (0 <? rtp_jitter_buffer_num_packets (jbuf priv))).
    + destruct (rtp_jitter_buffer_pop (jbuf priv)) as [[b queue] |];
        [| discriminate H].
      destruct (loop_sync _ _ _ _ _ b) as [w [r | p]] eqn:E.
      * injection H as -> ->.
        destruct (loop_sync_push_inv _ _ _ _ _ _ _ _ E)
          as [(p & Hp) | (p & Hp & _)]; [| discriminate Hp].
        injection Hp as -> ->.
        destruct (loop_push_buffer_seqnums p b (rtp_seq b)) as (Hl & Hn & _).
        cbv zeta in Hl, Hn.
        rewrite loop_push_buffer_seq, Hl, Hn.
        split; [reflexivity | split; [reflexivity |]].
        apply Z.mod_pos_bound. lia.
      * destruct (loop_again _ _ _ _ _ n p) as [more r] eqn:E2.
        injection H as <- ->. exact (IH _ _ E2).
    + destruct (negb (blocked priv) && eos priv); [discriminate H |].
      destruct (negb (flow_is_ok (srcresult (jbuf_wait priv))));
        [discriminate H |].
      exact (IH _ _ H).
Qed.

Lemma loop_push_expected_next_witness :
  exists priv',
    Examples.round Examples.quiet
      (Examples.pushed (Examples.started 100 8000) [Examples.packet 65535 8000])
    = ([(100000000, 65535)],
       LOOP_PUSH priv' (Examples.packet 65535 8000))
    /\ last_popped_seqnum priv' = 65535
    /\ next_seqnum priv' = 0.
Proof.
  eexists. split; [vm_compute; reflexivity |].
  match goal with
  | |- last_popped_seqnum ?p = _ /\ _ =>
      destruct (loop_push_expected_next Examples.ext_timestamp_id
                  Examples.running_time_id Examples.quiet Examples.quiet
                  Examples.with_clock 1
                  (Examples.pushed (Examples.started 100 8000)
                     [Examples.packet 65535 8000])
                  p [(100000000, 65535)] (Examples.packet 65535 8000))
        as (Hl & Hn & _)
  end.
  - vm_compute. reflexivity.
  - split; [exact Hl | exact Hn].
Defined.

(** X20.  While blocked is set, and as long as the other threads leave it
    set, the task takes no packet from the store: however many times it
    is woken, a round ends neither with a push nor with EOS and goes
    through no wait on the clock; it is still waiting, or it found the
    element flushing. *)
Theorem loop_blocked_never_pushes
    (gst_rtp_buffer_ext_timestamp : Z -> Z -> Z)
    (gst_segment_to_running_time : GstSegment -> GstFormat -> Z -> Z)
    (jbuf_wait clock_id_wait : GstRtpJitterBufferPrivate -> GstRtpJitterBufferPrivate)
    (element : GstElement) (rounds : nat) (priv : GstRtpJitterBufferPrivate) :
  (forall p, blocked p = true -> blocked (jbuf_wait p) = true) ->
  blocked priv = true ->
  exists priv',
    blocked priv' = true
    /\ (gst_rtp_jitter_buffer_loop gst_rtp_buffer_ext_timestamp
          gst_segment_to_running_time jbuf_wait clock_id_wait element rounds priv
        = ([], LOOP_WAITING priv')
        \/ gst_rtp_jitter_buffer_loop gst_rtp_buffer_ext_timestamp
             gst_segment_to_running_time jbuf_wait clock_id_wait element rounds priv
           = ([], LOOP_FLUSHING priv')).
Proof.
  intros Henv. unfold gst_rtp_jitter_buffer_loop.
  destruct (negb (flow_is_ok (srcresult priv)));
    [intros Hb; exists priv; split; [exact Hb | right; reflexivity] |].
  revert priv.
  induction rounds as [| n IH]; intros priv Hb; cbn [loop_again].
  - exists priv. split; [exact Hb | left; reflexivity].
  - rewrite Hb. cbn [negb andb].
    destruct (negb (flow_is_ok (srcresult (jbuf_wait priv)))).
    + exists (jbuf_wait priv). split; [apply Henv; exact Hb | right; reflexivity].
    + apply IH. apply Henv. exact Hb.
Qed.

Lemma loop_blocked_never_pushes_witness :
  exists priv',
    gst_rtp_jitter_buffer_loop Examples.ext_timestamp_id
      Examples.running_time_id Examples.quiet Examples.quiet Examples.with_clock
      5 (set_blocked
           (Examples.pushed (Examples.started 100 8000) [Examples.packet 1 8000])
           true)
    = ([], LOOP_WAITING priv').
Proof.
  destruct (loop_blocked_never_pushes Examples.ext_timestamp_id
              Examples.running_time_id Examples.quiet Examples.quiet
              Examples.with_clock 5
              (set_blocked
                 (Examples.pushed (Examples.started 100 8000)
                    [Examples.packet 1 8000]) true)
              (fun p H => H) eq_refl) as (p' & _ & [H | H]).
  - exists p'. exact H.
  - exfalso. vm_compute in H. discriminate H.
Defined.

(** X21.  The task goes to EOS only from a drained store: whenever a round
    ends at the label do_eos, whatever the other threads did meanwhile,
    the store is empty, eos is set, the task was not blocked, and
    srcresult has become UNEXPECTED. *)
Theorem loop_eos_only_when_drained
    (gst_rtp_buffer_ext_timestamp : Z -> Z -> Z)
    (gst_segment_to_running_time : GstSegment -> GstFormat -> Z -> Z)
    (jbuf_wait clock_id_wait : GstRtpJitterBufferPrivate -> GstRtpJitterBufferPrivate)
    (element : GstElement) (rounds : nat)
    (priv priv' : GstRtpJitterBufferPrivate) (waits : list ClockWait) :
  gst_rtp_jitter_buffer_loop gst_rtp_buffer_ext_timestamp
    gst_segment_to_running_time jbuf_wait clock_id_wait element rounds priv
  = (waits, LOOP_EOS priv') ->
  jbuf priv' = []
  /\ eos priv' = true
  /\ blocked priv' = false
  /\ srcresult priv' = GST_FLOW_UNEXPECTED.
Proof.
  unfold gst_rtp_jitter_buffer_loop.
  destruct (negb (flow_is_ok (srcresult priv))); [discriminate |].
  revert priv waits.
  induction rounds as [| n IH]; intros priv waits H; cbn [loop_again] in H.
  - discriminate H.
  - destruct (blocked priv) eqn:Hb; cbn [negb andb] in H.
    + destruct (negb (flow_is_ok (srcresult (jbuf_wait priv))));
        [discriminate H |].
      exact (IH _ _ H).
    + destruct (0 <? rtp_jitter_buffer_num_packets (jbuf priv)) eqn:Hn.
      * destruct (rtp_jitter_buffer_pop (jbuf priv)) as [[b queue] |];
          [| discriminate H].
        destruct (loop_sync _ _ _ _ _ b) as [w [r | p]] eqn:E.
        -- injection H as -> ->.
           destruct (loop_sync_push_inv _ _ _ _ _ _ _ _ E)
             as [(p & Hp) | (p & Hp & _)]; discriminate Hp.
        -- destruct (loop_again _ _ _ _ _ n p) as [more r] eqn:E2.
           injection H as <- ->. exact (IH _ _ E2).
      * destruct (eos priv) eqn:He.
        -- injection H as <- <-.
           cbn [jbuf eos blocked srcresult set_srcresult].
           unfold rtp_jitter_buffer_num_packets in Hn.
           apply Z.ltb_ge in Hn.
           destruct (jbuf priv); [| cbn [length] in Hn; lia].
           repeat split; assumption.
        -- destruct (negb (flow_is_ok (srcresult (jbuf_wait priv))));
             [discriminate H |].
           exact (IH _ _ H).
Qed.

Lemma loop_eos_only_when_drained_witness :
  exists priv',
    Examples.round Examples.quiet (set_eos (Examples.started 100 8000) true)
    = ([], LOOP_EOS priv')
    /\ jbuf priv' = [] /\ srcresult priv' = GST_FLOW_UNEXPECTED.
Proof.
  eexists. split; [vm_compute; reflexivity |].
  match goal with
  | |- jbuf ?p = _ /\ _ =>
      destruct (loop_eos_only_when_drained Examples.ext_timestamp_id
                  Examples.running_time_id Examples.quiet Examples.quiet
                  Examples.with_clock 1
                  (set_eos (Examples.started 100 8000) true) p [])
        as (Hj & _ & _ & Hs)
  end.
  - vm_compute. reflexivity.
  - split; [exact Hj | exact Hs].
Defined.

(** ** Release in order, gaps, the wait on the clock *)

(** X22.  A popped buffer whose seqnum is the expected one is pushed at
    once, clock or no clock: the task goes through no wait, num_late is
    not touched, and with a timestamp offset of 0 the buffer goes out as
    it came. *)
Theorem loop_sync_in_order
    (gst_rtp_buffer_ext_timestamp : Z -> Z -> Z)
    (gst_segment_to_running_time : GstSegment -> GstFormat -> Z -> Z)
    (clock_id_wait : GstRtpJitterBufferPrivate -> GstRtpJitterBufferPrivate)
    (element : GstElement)
    (priv : GstRtpJitterBufferPrivate) (outbuf : GstBuffer) :
  next_seqnum priv = rtp_seq outbuf ->
  next_seqnum priv <> SEQNUM_NONE ->
  exists priv' outbuf',
    loop_sync gst_rtp_buffer_ext_timestamp gst_segment_to_running_time
      clock_id_wait element priv outbuf
    = ([], SYNC_DONE (LOOP_PUSH priv' outbuf'))
    /\ num_late priv' = num_late priv
    /\ num_duplicates priv' = num_duplicates priv
    /\ clock_base priv' = clock_base priv
    /\ jbuf priv' = jbuf priv
    /\ (ts_offset priv = 0 -> outbuf' = outbuf).
Proof.
  intros Hnext Hknown.
  unfold loop_sync. cbn [next_seqnum set_exttimestamp].
  rewrite Hnext in *. rewrite Z.eqb_refl.
  apply Z.eqb_neq in Hknown. rewrite Hknown. cbn [negb orb].
  unfold loop_push_buffer. cbn [next_seqnum set_exttimestamp].
  rewrite Hnext, Z.eqb_refl, Hknown. cbn [negb andb].
  unfold ts_offset_rtp_of. cbn [ts_offset clock_rate set_exttimestamp].
  match goal with
  | |- context [negb (?c =? 0)] => destruct (Z.eqb_spec c 0) as [Ez | Enz]
  end; cbn [negb].
  - eexists. eexists. split; [reflexivity |].
    cbn. repeat split.
  - match goal with
    | |- context [negb (ts_offset priv =? ?x)] =>
        destruct (negb (ts_offset priv =? x))
    end;
      (eexists; eexists; split; [reflexivity |];
       cbn [num_late num_duplicates clock_base jbuf set_next_seqnum
            set_last_popped_seqnum set_prev_ts_offset set_exttimestamp];
       repeat split;
       intros Hz; rewrite Hz in Enz; cbn in Enz; contradiction).
Qed.

Lemma loop_sync_in_order_witness :
  let priv := set_next_seqnum (Examples.started 100 8000) 101 in
  exists priv',
    loop_sync Examples.ext_timestamp_id Examples.running_time_id
      Examples.quiet Examples.with_clock priv (Examples.packet 101 8160)
    = ([], SYNC_DONE (LOOP_PUSH priv' (Examples.packet 101 8160))).
Proof.
  cbv zeta.
  destruct (loop_sync_in_order Examples.ext_timestamp_id
              Examples.running_time_id Examples.quiet Examples.with_clock
              (set_next_seqnum (Examples.started 100 8000) 101)
              (Examples.packet 101 8160) eq_refl)
    as (p' & b' & Hrun & _ & _ & _ & _ & Hb).
  - vm_compute. discriminate.
  - exists p'. rewrite Hrun, (Hb eq_refl). reflexivity.
Defined.

(** X23.  When a buffer is pushed whose seqnum lies above the expected
    one, by no more than 32768 and without a wrap between the two, num_late
    grows by the number of seqnums in between, the expected one included,
    and the buffer is marked DISCONT. *)
Theorem loop_push_buffer_gap (priv : GstRtpJitterBufferPrivate)
    (outbuf : GstBuffer) (seqnum : Z) :
  is_guint16 (next_seqnum priv) ->
  next_seqnum priv < seqnum <= next_seqnum priv + 2 ^ 15 ->
  0 <= num_late priv ->
  num_late priv + (seqnum - next_seqnum priv) <= G_MAXUINT64 ->
  num_late (fst (loop_push_buffer priv outbuf seqnum))
  = num_late priv + (seqnum - next_seqnum priv)
  /\ flag_discont (snd (loop_push_buffer priv outbuf seqnum)) = true.
Proof.
  unfold is_guint16, G_MAXUINT16. intros Hn Hgap Hl0 Hl.
  unfold loop_push_buffer.
  assert (Hk : (next_seqnum priv =? SEQNUM_NONE) = false)
    by (apply Z.eqb_neq; rewrite SEQNUM_NONE_value; lia).
  assert (Hd : (next_seqnum priv =? seqnum) = false) by (apply Z.eqb_neq; lia).
  rewrite Hk, Hd. cbn [negb andb].
  rewrite to_guint16_id by (unfold is_guint16, G_MAXUINT16; lia).
  assert (Hc : priv_compare_rtp_seq_lt (next_seqnum priv) seqnum
               = seqnum - next_seqnum priv).
  { unfold priv_compare_rtp_seq_lt.
    destruct (Z.ltb_spec (2 ^ 15) (Z.abs (seqnum - next_seqnum priv))); lia. }
  rewrite Hc.
  rewrite to_guint64_id by (unfold is_guint64; lia).
  match goal with
  | |- context [negb (ts_offset_rtp_of ?p =? 0)] =>
      destruct (negb (ts_offset_rtp_of p =? 0));
      [destruct (negb (ts_offset p =? prev_ts_offset p)) |]
  end; cbn; split; reflexivity.
Qed.

Lemma loop_push_buffer_gap_witness :
  let priv := set_next_seqnum (Examples.started 100 8000) 301 in
  num_late (fst (loop_push_buffer priv (Examples.packet 302 16320) 302)) = 1.
Proof.
  cbv zeta.
  destruct (loop_push_buffer_gap
              (set_next_seqnum (Examples.started 100 8000) 301)
              (Examples.packet 302 16320) 302) as (Hl & _).
  - vm_compute. split; discriminate.
  - vm_compute. split; [reflexivity | discriminate].
  - vm_compute. discriminate.
  - vm_compute. discriminate.
  - rewrite Hl. reflexivity.
Defined.

Lemma loop_running_time_keeps
    (gst_segment_to_running_time : GstSegment -> GstFormat -> Z -> Z)
    (priv : GstRtpJitterBufferPrivate) (ext : Z) :
  let priv' := fst (loop_running_time gst_segment_to_running_time priv ext) in
  latency_ms priv' = latency_ms priv
  /\ peer_latency priv' = peer_latency priv
  /\ last_popped_seqnum priv' = last_popped_seqnum priv
  /\ srcresult priv' = srcresult priv
  /\ num_late priv' = num_late priv.
Proof.
  cbv zeta. unfold loop_running_time.
  destruct (clock_base priv =? -1); cbn; repeat split.
Qed.

(** The waits a handling of a popped buffer goes through when the element
    has a clock and the buffer is not the expected one: one wait, for the
    seqnum of the buffer. *)
Lemma loop_sync_waits
    (gst_rtp_buffer_ext_timestamp : Z -> Z -> Z)
    (gst_segment_to_running_time : GstSegment -> GstFormat -> Z -> Z)
    (clock_id_wait : GstRtpJitterBufferPrivate -> GstRtpJitterBufferPrivate)
    (element : GstElement)
    (priv : GstRtpJitterBufferPrivate) (outbuf : GstBuffer) :
  element_has_clock element = true ->
  next_seqnum priv = SEQNUM_NONE \/ next_seqnum priv <> rtp_seq outbuf ->
  let ext := gst_rtp_buffer_ext_timestamp (exttimestamp priv) (rtp_timestamp outbuf) in
  let synced :=
    loop_running_time gst_segment_to_running_time (set_exttimestamp priv ext) ext in
  fst (loop_sync gst_rtp_buffer_ext_timestamp gst_segment_to_running_time
         clock_id_wait element priv outbuf)
  = [(to_guint64
        (to_gint64
           (to_gint64
              (to_gint64 (snd synced + latency_ms (fst synced) * GST_MSECOND)
               + peer_latency (fst synced))
            + element_base_time element)),
      rtp_seq outbuf)].
Proof.
  intros Hclock Hseq. cbv zeta.
  unfold loop_sync. cbn [next_seqnum set_exttimestamp].
  assert (Hcond : (next_seqnum priv =? SEQNUM_NONE)
                  || negb (next_seqnum priv =? rtp_seq outbuf) = true).
  { destruct Hseq as [E | N].
    - rewrite E, Z.eqb_refl. reflexivity.
    - apply Z.eqb_neq in N. rewrite N. apply orb_true_r. }
  rewrite Hcond, Hclock. cbn [negb].
  destruct (loop_running_time _ _ _) as [p t]. cbn [fst snd].
  match goal with
  | |- context [flow_is_ok (srcresult ?q)] => destruct (flow_is_ok (srcresult q))
  end; cbn [negb]; [| reflexivity].
  match goal with
  | |- context [clock_is_unscheduled ?c] => destruct (clock_is_unscheduled c)
  end.
  - destruct (rtp_jitter_buffer_insert _ outbuf) as [[|] queue]; reflexivity.
  - match goal with
    | |- context [loop_push_buffer ?q outbuf ?s] =>
        destruct (loop_push_buffer q outbuf s)
    end. reflexivity.
Qed.

(** X24.  On an element with a clock, a popped buffer that is not the
    expected one is waited for just once, until its running time plus
    latency_ms * GST_MSECOND plus the peer latency plus the base time of
    the element (nothing overflowing the signed 64 bits). *)
Theorem loop_sync_wait_time
    (gst_rtp_buffer_ext_timestamp : Z -> Z -> Z)
    (gst_segment_to_running_time : GstSegment -> GstFormat -> Z -> Z)
    (clock_id_wait : GstRtpJitterBufferPrivate -> GstRtpJitterBufferPrivate)
    (element : GstElement)
    (priv : GstRtpJitterBufferPrivate) (outbuf : GstBuffer) :
  element_has_clock element = true ->
  next_seqnum priv = SEQNUM_NONE \/ next_seqnum priv <> rtp_seq outbuf ->
  let ext := gst_rtp_buffer_ext_timestamp (exttimestamp priv) (rtp_timestamp outbuf) in
  let running_time :=
    snd (loop_running_time gst_segment_to_running_time
           (set_exttimestamp priv ext) ext) in
  0 <= running_time ->
  0 <= latency_ms priv -> 0 <= peer_latency priv ->
  0 <= element_base_time element ->
  running_time + latency_ms priv * GST_MSECOND + peer_latency priv
    + element_base_time element < 2 ^ 63 ->
  fst (loop_sync gst_rtp_buffer_ext_timestamp gst_segment_to_running_time
         clock_id_wait element priv outbuf)
  = [(running_time + latency_ms priv * GST_MSECOND + peer_latency priv
      + element_base_time element,
      rtp_seq outbuf)].
Proof.
  intros Hclock Hseq. cbv zeta. intros Hrt Hlat Hpeer Hbase Hfit.
  rewrite (loop_sync_waits _ _ _ _ _ _ Hclock Hseq). cbv zeta.
  match goal with
  | |- context [loop_running_time ?g ?p ?e] =>
      destruct (loop_running_time_keeps g p e) as (Hl & Hp & _);
      cbv zeta in Hl, Hp
  end.
  rewrite Hl, Hp. cbn [latency_ms peer_latency set_exttimestamp].
  unfold GST_MSECOND in *.
  rewrite (to_gint64_id (_ + latency_ms priv * 1000000))
    by (unfold is_gint64; lia).
  rewrite (to_gint64_id (_ + peer_latency priv)) by (unfold is_gint64; lia).
  rewrite (to_gint64_id (_ + element_base_time element))
    by (unfold is_gint64; lia).
  rewrite to_guint64_id by (unfold is_guint64, G_MAXUINT64; lia).
  reflexivity.
Qed.

Lemma loop_sync_wait_time_witness :
  fst (loop_sync Examples.ext_timestamp_id Examples.running_time_id
         Examples.quiet (mkElement true 5000000000)
         (set_peer_latency (set_clock_base (Examples.started 100 8000) 0) 20000000)
         (Examples.packet 100 8000))
  = [(1000000000 + 100 * GST_MSECOND + 20000000 + 5000000000, 100)].
Proof.
  rewrite (loop_sync_wait_time Examples.ext_timestamp_id
             Examples.running_time_id Examples.quiet
             (mkElement true 5000000000)
             (set_peer_latency (set_clock_base (Examples.started 100 8000) 0)
                20000000)
             (Examples.packet 100 8000)).
  - vm_compute. reflexivity.
  - reflexivity.
  - left. reflexivity.
  - vm_compute. discriminate.
  - vm_compute. discriminate.
  - vm_compute. discriminate.
  - vm_compute. discriminate.
  - vm_compute. reflexivity.
Defined.

(** X25.  The task leaves no clock entry behind: whatever happens during
    the wait, when the handling of a popped buffer is over (push, jump to
    again, or flushing) and no entry was recorded before, none is
    recorded after. *)
Theorem loop_sync_clears_clock_id
    (gst_rtp_buffer_ext_timestamp : Z -> Z -> Z)
    (gst_segment_to_running_time : GstSegment -> GstFormat -> Z -> Z)
    (clock_id_wait : GstRtpJitterBufferPrivate -> GstRtpJitterBufferPrivate)
    (element : GstElement)
    (priv : GstRtpJitterBufferPrivate) (outbuf : GstBuffer) :
  clock_id priv = None ->
  match snd (loop_sync gst_rtp_buffer_ext_timestamp gst_segment_to_running_time
               clock_id_wait element priv outbuf) with
  | SYNC_DONE (LOOP_PUSH p _) => clock_id p = None
  | SYNC_DONE (LOOP_FLUSHING p) => clock_id p = None
  | SYNC_AGAIN p => clock_id p = None
  | SYNC_DONE (LOOP_EOS _) => False
  | SYNC_DONE (LOOP_WAITING _) => False
  end.
Proof.
  intros Hnone. unfold loop_sync.
  assert (Hpush : forall p b s,
             clock_id (fst (loop_push_buffer p b s)) = clock_id p).
  { intros p b s.
    destruct (loop_push_buffer_seqnums p b s) as (_ & _ & Hc & _).
    exact Hc. }
  destruct ((next_seqnum _ =? SEQNUM_NONE) || negb (next_seqnum _ =? rtp_seq outbuf)).
  - match goal with
    | |- context [loop_running_time ?g ?p ?e] =>
        destruct (loop_running_time_frame g p e) as (Hc & _);
        cbv zeta in Hc; cbn [clock_id set_exttimestamp] in Hc;
        destruct (loop_running_time g p e) as [p1 t]; cbn [fst] in Hc
    end.
    destruct (negb (element_has_clock element)).
    + specialize (Hpush p1 outbuf (rtp_seq outbuf)).
      destruct (loop_push_buffer p1 outbuf (rtp_seq outbuf)) as [p' b'].
      cbn [snd fst] in *. congruence.
    + match goal with
      | |- context [flow_is_ok (srcresult ?q)] =>
          destruct (flow_is_ok (srcresult q)); cbn [negb]
      end; [| reflexivity].
      match goal with
      | |- context [clock_is_unscheduled ?c] => destruct (clock_is_unscheduled c)
      end.
      * destruct (rtp_jitter_buffer_insert _ outbuf) as [[|] queue]; reflexivity.
      * match goal with
        | |- context [loop_push_buffer ?q outbuf ?s] =>
            specialize (Hpush q outbuf s);
            destruct (loop_push_buffer q outbuf s) as [p' b']
        end.
        cbn [snd fst] in *. rewrite Hpush. reflexivity.
  - match goal with
    | |- context [loop_push_buffer ?q outbuf ?s] =>
        specialize (Hpush q outbuf s);
        destruct (loop_push_buffer q outbuf s) as [p' b']
    end.
    cbn [snd fst] in *. rewrite Hpush. exact Hnone.
Qed.

Lemma loop_sync_clears_clock_id_witness :
  match snd (loop_sync Examples.ext_timestamp_id Examples.running_time_id
               gst_rtp_jitter_buffer_flush_start Examples.with_clock
               (Examples.started 100 8000) (Examples.packet 600 8000)) with
  | SYNC_DONE (LOOP_PUSH p _) => clock_id p = None
  | SYNC_DONE (LOOP_FLUSHING p) => clock_id p = None
  | SYNC_AGAIN p => clock_id p = None
  | SYNC_DONE (LOOP_EOS _) => False
  | SYNC_DONE (LOOP_WAITING _) => False
  end.
Proof.
  apply (loop_sync_clears_clock_id Examples.ext_timestamp_id
           Examples.running_time_id gst_rtp_jitter_buffer_flush_start
           Examples.with_clock (Examples.started 100 8000)
           (Examples.packet 600 8000)).
  reflexivity.
Defined.

(** X26.  A flush start that comes while the task sleeps on the clock:
    the task finds itself flushing, the popped buffer is not pushed, the
    store is empty, the entry is gone, and the seqnum popped last, the
    expected one and num_late are as before the buffer was popped. *)
Theorem loop_sync_flush_during_wait
    (gst_rtp_buffer_ext_timestamp : Z -> Z -> Z)
    (gst_segment_to_running_time : GstSegment -> GstFormat -> Z -> Z)
    (element : GstElement)
    (priv : GstRtpJitterBufferPrivate) (outbuf : GstBuffer) :
  element_has_clock element = true ->
  next_seqnum priv = SEQNUM_NONE \/ next_seqnum priv <> rtp_seq outbuf ->
  exists priv',
    snd (loop_sync gst_rtp_buffer_ext_timestamp gst_segment_to_running_time
           gst_rtp_jitter_buffer_flush_start element priv outbuf)
    = SYNC_DONE (LOOP_FLUSHING priv')
    /\ jbuf priv' = []
    /\ srcresult priv' = GST_FLOW_WRONG_STATE
    /\ clock_id priv' = None
    /\ waiting_seqnum priv' = SEQNUM_NONE
    /\ last_popped_seqnum priv' = last_popped_seqnum priv
    /\ next_seqnum priv' = next_seqnum priv
    /\ num_late priv' = num_late priv.
Proof.
  intros Hclock Hseq.
  unfold loop_sync. cbn [next_seqnum set_exttimestamp].
  assert (Hcond : (next_seqnum priv =? SEQNUM_NONE)
                  || negb (next_seqnum priv =? rtp_seq outbuf) = true).
  { destruct Hseq as [E | N].
    - rewrite E, Z.eqb_refl. reflexivity.
    - apply Z.eqb_neq in N. rewrite N. apply orb_true_r. }
  rewrite Hcond, Hclock. cbn [negb].
  match goal with
  | |- context [loop_running_time ?g ?p ?e] =>
      destruct (loop_running_time_keeps g p e) as (_ & _ & Hl & _ & Hn);
      destruct (loop_running_time_frame g p e) as (_ & _ & _ & Hx);
      cbv zeta in Hl, Hn, Hx;
      cbn [last_popped_seqnum num_late next_seqnum set_exttimestamp] in Hl, Hn, Hx;
      destruct (loop_running_time g p e) as [p1 t]; cbn [fst] in Hl, Hn, Hx
  end.
  unfold gst_rtp_jitter_buffer_flush_start.
  cbn [clock_id set_clock_id set_waiting_seqnum set_jbuf set_srcresult
       srcresult flow_is_ok negb snd].
  eexists. split; [reflexivity |].
  cbn. repeat split; assumption.
Qed.

Lemma loop_sync_flush_during_wait_witness :
  exists priv',
    snd (loop_sync Examples.ext_timestamp_id Examples.running_time_id
           gst_rtp_jitter_buffer_flush_start Examples.with_clock
           (Examples.started 100 8000) (Examples.packet 600 8000))
    = SYNC_DONE (LOOP_FLUSHING priv')
    /\ jbuf priv' = [].
Proof.
  destruct (loop_sync_flush_during_wait Examples.ext_timestamp_id
              Examples.running_time_id Examples.with_clock
              (Examples.started 100 8000) (Examples.packet 600 8000)
              eq_refl (or_introl eq_refl)) as (p' & Hrun & Hj & _).
  exists p'. split; [exact Hrun | exact Hj].
Defined.



